(** * Streaming pipeline of the environmental monitoring system

    A shallow embedding of [monitoring_pipeline.py]: the risk classifiers,
    the record transformer [_transform_row] and the poll loop of
    [PathwaySimulator.run], together with the parts of the Python runtime
    the loop goes through (UTF-8 text files opened in universal-newline
    mode, [str.strip], [json.loads], [int], [float], [json.dumps]).

    Conventions.
    - A file is a list of bytes; a Python [str] is a list of code points.
    - Python [int] is [Z]; Python [float] is a binary64 value, represented
      by [spec_float] at precision 53 and maximal exponent 1024.
    - An exception is a value of [exn]; code that may raise returns a
      [result].  The poll loop threads its state through a state-and-
      exception monad [M], so that the state reached when an exception
      escapes is still visible.
    - The loop never ends; [run_loop] runs its first iterations, one per
      observation of the input file given by the environment ([None] when
      the file does not exist).
    - Two parts of the runtime are parameters of the engine: the string
      that [float.__repr__] gives for a finite value, and the table of
      decimal digits outside ASCII, which changes with the Unicode version
      of the runtime.  The properties hold for every choice of them;
      [float_repr_shortest] and [unicode14_todecimal] are the ones the
      samples are run with.
    - Not modelled: failures of the operating system when a file is opened
      or written, the recursion limit of the interpreter, and what the
      printed lines look like (a printed line is kept as the values it is
      formatted from). *)

From Stdlib Require Import String Ascii ZArith NArith List Bool Lia.
From Stdlib Require Import SpecFloat DecimalString FunInd.
Import ListNotations.

Set Implicit Arguments.
Local Open Scope N_scope.

(** ** Exceptions and results *)

Inductive exn : Set :=
| JSONDecodeError
| ValueError
| TypeError
| OverflowError
| AttributeError
| UnicodeDecodeError
| RecursionError.

Inductive result (A : Type) : Type :=
| Ok (a : A)
| Raise (e : exn).

Arguments Raise {A} e.

Definition rbind {A B} (r : result A) (k : A -> result B) : result B :=
  match r with
  | Ok a => k a
  | Raise e => Raise e
  end.

Definition rmap {A B} (f : A -> B) (r : result A) : result B :=
  rbind r (fun a => Ok (f a)).

Notation "x <- r ;; k" := (rbind r (fun x => k))
  (at level 61, r at next level, right associativity).
Notation "' pat <- r ;; k" := (rbind r (fun x => match x with pat => k end))
  (at level 61, pat pattern, r at next level, right associativity).

Definition exn_eqb (a b : exn) : bool :=
  match a, b with
  | JSONDecodeError, JSONDecodeError | ValueError, ValueError
  | TypeError, TypeError | OverflowError, OverflowError
  | AttributeError, AttributeError | UnicodeDecodeError, UnicodeDecodeError
  | RecursionError, RecursionError => true
  | _, _ => false
  end.

(** ** Text: code points, UTF-8, line structure *)

Definition char := N.
Definition text := list char.

Definition LF : char := 10.
Definition CR : char := 13.

Definition is_cont (n : N) : bool := (128 <=? n) && (n <? 192).

(** The strict UTF-8 decoder of [open(..., encoding="utf-8")]: shortest
    forms only, no surrogates, nothing above U+10FFFF. *)
Fixpoint utf8_decode (bs : list Byte.byte) : result text :=
  match bs with
  | [] => Ok []
  | b0 :: r0 =>
    let n0 := Byte.to_N b0 in
    if n0 <? 0x80 then rmap (cons n0) (utf8_decode r0)
    else if n0 <? 0xC2 then Raise UnicodeDecodeError
    else if n0 <? 0xE0 then
      match r0 with
      | b1 :: r1 =>
        let n1 := Byte.to_N b1 in
        if is_cont n1
        then rmap (cons ((n0 - 0xC0) * 64 + (n1 - 0x80))) (utf8_decode r1)
        else Raise UnicodeDecodeError
      | _ => Raise UnicodeDecodeError
      end
    else if n0 <? 0xF0 then
      match r0 with
      | b1 :: b2 :: r2 =>
        let n1 := Byte.to_N b1 in
        let n2 := Byte.to_N b2 in
        let cp := (n0 - 0xE0) * 4096 + (n1 - 0x80) * 64 + (n2 - 0x80) in
        if is_cont n1 && is_cont n2
           && (0x800 <=? cp) && negb ((0xD800 <=? cp) && (cp <? 0xE000))
        then rmap (cons cp) (utf8_decode r2)
        else Raise UnicodeDecodeError
      | _ => Raise UnicodeDecodeError
      end
    else if n0 <? 0xF5 then
      match r0 with
      | b1 :: b2 :: b3 :: r3 =>
        let n1 := Byte.to_N b1 in
        let n2 := Byte.to_N b2 in
        let n3 := Byte.to_N b3 in
        let cp := (n0 - 0xF0) * 262144 + (n1 - 0x80) * 4096
                  + (n2 - 0x80) * 64 + (n3 - 0x80) in
        if is_cont n1 && is_cont n2 && is_cont n3
           && (0x10000 <=? cp) && (cp <=? 0x10FFFF)
        then rmap (cons cp) (utf8_decode r3)
        else Raise UnicodeDecodeError
      | _ => Raise UnicodeDecodeError
      end
    else Raise UnicodeDecodeError
  end.

(** A literal of the source, read as the UTF-8 text it is. *)
Definition str (s : string) : text :=
  match utf8_decode (list_byte_of_string s) with
  | Ok t => t
  | Raise _ => []
  end.

(** Universal newlines ([newline=None] on reading): a CR LF pair and a lone
    CR both reach the program as LF. *)
Fixpoint translate_newlines (t : text) : text :=
  match t with
  | [] => []
  | c :: t' =>
    if c =? CR then
      match t' with
      | c' :: t'' =>
        if c' =? LF then LF :: translate_newlines t''
        else LF :: translate_newlines t'
      | [] => [LF]
      end
    else c :: translate_newlines t'
  end.

(** Splitting after every LF, each line keeping its LF; what is left after
    the last LF, if anything, is a line of its own. *)
Fixpoint split_lines (cur : text) (t : text) : list text :=
  match t with
  | [] => match cur with [] => [] | _ => [cur] end
  | c :: t' =>
    if c =? LF then (cur ++ [LF]) :: split_lines [] t'
    else split_lines (cur ++ [c]) t'
  end.

(** [f.readlines()] on the text that is left to read. *)
Definition readlines (t : text) : list text :=
  split_lines [] (translate_newlines t).

(** [str.isspace] for one character. *)
Definition isspace (c : char) : bool :=
  ((0x9 <=? c) && (c <=? 0xD)) || ((0x1C <=? c) && (c <=? 0x20))
  || (c =? 0x85) || (c =? 0xA0) || (c =? 0x1680)
  || ((0x2000 <=? c) && (c <=? 0x200A))
  || (c =? 0x2028) || (c =? 0x2029) || (c =? 0x202F) || (c =? 0x205F)
  || (c =? 0x3000).

Fixpoint lstrip (t : text) : text :=
  match t with
  | [] => []
  | c :: t' => if isspace c then lstrip t' else t
  end.

Definition rstrip (t : text) : text := rev (lstrip (rev t)).

(** [line.strip()] *)
Definition strip (t : text) : text := rstrip (lstrip t).

(** ** Python [float]: binary64 *)

Definition float := spec_float.
Definition prec : Z := 53.
Definition emax : Z := 1024.

(** [float(n)] for an [int] [n], rounding to nearest even; the conversion
    overflows where the rounded value would leave the binary64 range. *)
Definition float_of_Z (z : Z) : float :=
  binary_normalize prec emax z 0 false.

(** The binary64 value nearest to [(-1)^neg * d * 10^k] (ties to even), as
    [float] reads a decimal literal. *)
Definition float_of_decimal (neg : bool) (d : N) (k : Z) : float :=
  match d with
  | N0 => S754_zero neg
  | Npos p =>
    if (0 <=? k)%Z
    then binary_normalize prec emax (cond_Zopp neg (Zpos p * 10 ^ k)) 0 neg
    else
      let '(m, e, l) :=
        SFdiv_core_binary prec emax (Zpos p) 0 (10 ^ (- k)) 0 in
      binary_round_aux prec emax neg m e l
  end.

(** [int(x)] for a [float] [x]: truncation toward zero. *)
Definition float_trunc (f : float) : result Z :=
  match f with
  | S754_zero _ => Ok 0%Z
  | S754_nan => Raise ValueError
  | S754_infinity _ => Raise OverflowError
  | S754_finite s m e => Ok (cond_Zopp s (Z.shiftl (Zpos m) e))
  end.

(** [x > n] for a [float] [x] and a small [int] constant [n]: the constant
    is converted (exactly) and two binary64 values are compared; a NaN
    compares false. *)
Definition float_gt (x : float) (n : Z) : bool :=
  SFltb (float_of_Z n) x.

Definition is_finite (f : float) : bool :=
  match f with
  | S754_zero _ | S754_finite _ _ _ => true
  | _ => false
  end.

(** ** Python objects that [json.loads] builds *)

Fixpoint text_eqb (a b : text) : bool :=
  match a, b with
  | [], [] => true
  | x :: a', y :: b' => (x =? y) && text_eqb a' b'
  | _, _ => false
  end.

(** A [dict] keeps its keys in insertion order; storing under a key that is
    there replaces the value in place. *)
Fixpoint dict_set {V} (d : list (text * V)) (k : text) (v : V)
  : list (text * V) :=
  match d with
  | [] => [(k, v)]
  | (k', v') :: d' =>
    if text_eqb k' k then (k', v) :: d' else (k', v') :: dict_set d' k v
  end.

Fixpoint dict_lookup {V} (d : list (text * V)) (k : text) : option V :=
  match d with
  | [] => None
  | (k', v') :: d' => if text_eqb k' k then Some v' else dict_lookup d' k
  end.

#[warnings="-register-all"]
Inductive pyobj : Type :=
| PyNone
| PyBool (b : bool)
| PyInt (z : Z)
| PyFloat (f : float)
| PyStr (s : text)
| PyList (l : list pyobj)
| PyDict (d : list (text * pyobj)).

(** ** [json.loads]

    The decoder of CPython's [json] package: whitespace is space, tab, LF
    and CR; strings are scanned strictly; a number is an [int] unless it has
    a fraction or an exponent; [NaN], [Infinity] and [-Infinity] are read
    too.  Every syntax error is a [JSONDecodeError] (its message and
    position are not kept). *)

Definition ch (a : ascii) : char := N_of_ascii a.
Arguments ch a%_char.

Definition QUOTE : char := 34.
Definition BACKSLASH : char := 92.

Definition is_json_ws (c : char) : bool :=
  (c =? 32) || (c =? 9) || (c =? 10) || (c =? 13).

Fixpoint skip_ws (s : text) : text :=
  match s with
  | [] => []
  | c :: s' => if is_json_ws c then skip_ws s' else s
  end.

Fixpoint strip_prefix (p s : text) : option text :=
  match p, s with
  | [], _ => Some s
  | x :: p', y :: s' => if x =? y then strip_prefix p' s' else None
  | _ :: _, [] => None
  end.

Definition is_digit (c : char) : bool := (48 <=? c) && (c <=? 57).

Definition hexval (c : char) : option N :=
  if is_digit c then Some (c - 48)
  else if (97 <=? c) && (c <=? 102) then Some (c - 87)
  else if (65 <=? c) && (c <=? 70) then Some (c - 55)
  else None.

Definition hex4 (a b c d : char) : option N :=
  match hexval a, hexval b, hexval c, hexval d with
  | Some x, Some y, Some z, Some w => Some (((x * 16 + y) * 16 + z) * 16 + w)
  | _, _, _, _ => None
  end.

Definition unescape (e : char) : option char :=
  if e =? QUOTE then Some QUOTE
  else if e =? BACKSLASH then Some BACKSLASH
  else if e =? ch "/" then Some (ch "/")
  else if e =? ch "b" then Some 8
  else if e =? ch "f" then Some 12
  else if e =? ch "n" then Some 10
  else if e =? ch "r" then Some 13
  else if e =? ch "t" then Some 9
  else None.

Definition is_high_surrogate (u : N) : bool := (0xD800 <=? u) && (u <=? 0xDBFF).
Definition is_low_surrogate (u : N) : bool := (0xDC00 <=? u) && (u <=? 0xDFFF).
Definition join_surrogates (hi lo : N) : N :=
  0x10000 + ((hi - 0xD800) * 1024 + (lo - 0xDC00)).

(** [scanstring]: [s] starts just after the opening quote; [acc] holds the
    characters read so far, last one first. *)
Fixpoint scanstring (acc : text) (s : text) : result (text * text) :=
  match s with
  | [] => Raise JSONDecodeError
  | c :: s1 =>
    if c =? QUOTE then Ok (rev acc, s1)
    else if c =? BACKSLASH then
      match s1 with
      | [] => Raise JSONDecodeError
      | e :: s2 =>
        if e =? ch "u" then
          match s2 with
          | h1 :: h2 :: h3 :: h4 :: s3 =>
            match hex4 h1 h2 h3 h4 with
            | None => Raise JSONDecodeError
            | Some uni =>
              if is_high_surrogate uni then
                match s3 with
                | b :: u :: g1 :: g2 :: g3 :: g4 :: s4 =>
                  if (b =? BACKSLASH) && (u =? ch "u") then
                    match hex4 g1 g2 g3 g4 with
                    | None => Raise JSONDecodeError
                    | Some uni2 =>
                      if is_low_surrogate uni2
                      then scanstring (join_surrogates uni uni2 :: acc) s4
                      else scanstring (uni :: acc) s3
                    end
                  else scanstring (uni :: acc) s3
                | _ => scanstring (uni :: acc) s3
                end
              else scanstring (uni :: acc) s3
            end
          | _ => Raise JSONDecodeError
          end
        else
          match unescape e with
          | Some c' => scanstring (c' :: acc) s2
          | None => Raise JSONDecodeError
          end
      end
    else if c <? 32 then Raise JSONDecodeError
    else scanstring (c :: acc) s1
  end.

Fixpoint span_digits (s : text) : list N * text :=
  match s with
  | [] => ([], [])
  | c :: s' =>
    if is_digit c
    then let '(ds, r) := span_digits s' in ((c - 48) :: ds, r)
    else ([], s)
  end.

Definition digits_value (ds : list N) : N :=
  fold_left (fun a d => a * 10 + d) ds 0.

(** The limit on the length of a decimal string that [int] converts
    ([sys.get_int_max_str_digits()], 4300 unless changed). *)
Definition MAX_STR_DIGITS : nat := 4300.

Definition number_value (neg : bool) (ids : list N) (frac : option (list N))
    (exp : option (bool * list N)) : result pyobj :=
  match frac, exp with
  | None, None =>
    if (MAX_STR_DIGITS <? length ids)%nat then Raise ValueError
    else Ok (PyInt (cond_Zopp neg (Z.of_N (digits_value ids))))
  | _, _ =>
    let fds := match frac with Some f => f | None => [] end in
    let e := match exp with
             | Some (eneg, eds) => cond_Zopp eneg (Z.of_N (digits_value eds))
             | None => 0%Z
             end in
    Ok (PyFloat (float_of_decimal neg (digits_value (ids ++ fds))
                                  (e - Z.of_nat (length fds))))
  end.

Definition take_minus (s : text) : bool * text :=
  match s with
  | c :: r => if c =? ch "-" then (true, r) else (false, s)
  | [] => (false, s)
  end.

(** A zero, or a digit other than zero and then any digits. *)
Definition scan_int_part (s : text) : option (list N * text) :=
  match s with
  | [] => None
  | c :: r =>
    if c =? ch "0" then Some ([0], r)
    else if is_digit c then Some (span_digits s)
    else None
  end.

(** A dot and at least one digit, if they are there. *)
Definition scan_frac (s : text) : option (list N) * text :=
  match s with
  | p :: d :: _ =>
    if (p =? ch ".") && is_digit d
    then let '(fds, r) := span_digits (tl s) in (Some fds, r)
    else (None, s)
  | _ => (None, s)
  end.

(** [e] or [E], an optional sign and at least one digit, if they are
    there. *)
Definition scan_exp (s : text) : option (bool * list N) * text :=
  match s with
  | e :: r =>
    if (e =? ch "e") || (e =? ch "E") then
      let '(eneg, r') :=
        match r with
        | sg :: r' =>
          if sg =? ch "-" then (true, r')
          else if sg =? ch "+" then (false, r')
          else (false, r)
        | [] => (false, r)
        end in
      match span_digits r' with
      | ([], _) => (None, s)
      | (eds, r'') => (Some (eneg, eds), r'')
      end
    else (None, s)
  | [] => (None, s)
  end.

(** The number grammar, matched at the head of [s]: an optional minus sign,
    the integer part, an optional fraction, an optional exponent. *)
Definition match_number (s : text) : option (result pyobj * text) :=
  let '(neg, s0) := take_minus s in
  match scan_int_part s0 with
  | None => None
  | Some (ids, s1) =>
    let '(frac, s2) := scan_frac s1 in
    let '(exp, s3) := scan_exp s2 in
    Some (number_value neg ids frac exp, s3)
  end.

Definition scan_constant (s : text) : option (pyobj * text) :=
  match strip_prefix (str "null") s with
  | Some r => Some (PyNone, r)
  | None =>
  match strip_prefix (str "true") s with
  | Some r => Some (PyBool true, r)
  | None =>
  match strip_prefix (str "false") s with
  | Some r => Some (PyBool false, r)
  | None =>
  match strip_prefix (str "NaN") s with
  | Some r => Some (PyFloat S754_nan, r)
  | None =>
  match strip_prefix (str "Infinity") s with
  | Some r => Some (PyFloat (S754_infinity false), r)
  | None =>
  match strip_prefix (str "-Infinity") s with
  | Some r => Some (PyFloat (S754_infinity true), r)
  | None => None
  end end end end end end.

(** [scan_once] reads one value at the head of [s]; [parse_members] reads
    the members of an object from just after the opening quote of a key,
    [parse_elements] the elements of an array from its next value.  The
    recursion is on [fuel], of which [json_loads] gives more than any text
    can use up. *)
Fixpoint scan_once (fuel : nat) (s : text) : result (pyobj * text) :=
  match fuel with
  | O => Raise RecursionError
  | S fuel' =>
    match s with
    | [] => Raise JSONDecodeError
    | c :: s1 =>
      if c =? QUOTE then
        '(k, r) <- scanstring [] s1 ;; Ok (PyStr k, r)
      else if c =? ch "{" then
        match skip_ws s1 with
        | d :: s2 =>
          if d =? ch "}" then Ok (PyDict [], s2)
          else if d =? QUOTE then parse_members fuel' [] s2
          else Raise JSONDecodeError
        | [] => Raise JSONDecodeError
        end
      else if c =? ch "[" then
        match skip_ws s1 with
        | d :: s2 =>
          if d =? ch "]" then Ok (PyList [], s2)
          else parse_elements fuel' [] (d :: s2)
        | [] => Raise JSONDecodeError
        end
      else
        match scan_constant s with
        | Some v => Ok v
        | None =>
          match match_number s with
          | Some (v, r) => v' <- v ;; Ok (v', r)
          | None => Raise JSONDecodeError
          end
        end
    end
  end

with parse_members (fuel : nat) (acc : list (text * pyobj)) (s : text)
  : result (pyobj * text) :=
  match fuel with
  | O => Raise RecursionError
  | S fuel' =>
    '(key, r1) <- scanstring [] s ;;
    match skip_ws r1 with
    | c :: r2 =>
      if c =? ch ":" then
        '(v, r3) <- scan_once fuel' (skip_ws r2) ;;
        let acc' := dict_set acc key v in
        match skip_ws r3 with
        | d :: r4 =>
          if d =? ch "}" then Ok (PyDict acc', r4)
          else if d =? ch "," then
            match skip_ws r4 with
            | q :: r5 =>
              if q =? QUOTE then parse_members fuel' acc' r5
              else Raise JSONDecodeError
            | [] => Raise JSONDecodeError
            end
          else Raise JSONDecodeError
        | [] => Raise JSONDecodeError
        end
      else Raise JSONDecodeError
    | [] => Raise JSONDecodeError
    end
  end

with parse_elements (fuel : nat) (acc : list pyobj) (s : text)
  : result (pyobj * text) :=
  match fuel with
  | O => Raise RecursionError
  | S fuel' =>
    '(v, r1) <- scan_once fuel' s ;;
    let acc' := acc ++ [v] in
    match skip_ws r1 with
    | d :: r2 =>
      if d =? ch "]" then Ok (PyList acc', r2)
      else if d =? ch "," then parse_elements fuel' acc' (skip_ws r2)
      else Raise JSONDecodeError
    | [] => Raise JSONDecodeError
    end
  end.

Definition BOM : char := 0xFEFF.

Definition json_loads (s : text) : result pyobj :=
  match s with
  | c :: _ => if c =? BOM then Raise JSONDecodeError else
    '(obj, rest) <- scan_once (2 * length s + 1) (skip_ws s) ;;
    match skip_ws rest with
    | [] => Ok obj
    | _ :: _ => Raise JSONDecodeError
    end
  | [] => Raise JSONDecodeError
  end.

(** ** [float.__repr__]

    The shortest string of decimal digits that [float] reads back as the
    same value, the nearest to the value among the strings of that length;
    scientific notation below 1e-4 and from 1e16 on. *)

Definition float_eqb (a b : float) : bool :=
  match a, b with
  | S754_zero s, S754_zero s' => Bool.eqb s s'
  | S754_infinity s, S754_infinity s' => Bool.eqb s s'
  | S754_nan, S754_nan => true
  | S754_finite s m e, S754_finite s' m' e' =>
    Bool.eqb s s' && Pos.eqb m m' && Z.eqb e e'
  | _, _ => false
  end.

Definition lt_pow10 (num den p : Z) : bool :=
  if (0 <=? p)%Z then (num <? den * 10 ^ p)%Z
  else (num * 10 ^ (- p) <? den)%Z.

(** The least [p], from [p] on, with [num / den < 10 ^ p]. *)
Fixpoint find_decpt (fuel : nat) (num den p : Z) : Z :=
  match fuel with
  | O => p
  | S fuel' =>
    if lt_pow10 num den p then p else find_decpt fuel' num den (p + 1)
  end.

(** [a / b] rounded to the nearest integer, ties to even. *)
Definition round_div (a b : Z) : Z :=
  let q := (a / b)%Z in
  match (2 * (a mod b) ?= b)%Z with
  | Lt => q
  | Gt => (q + 1)%Z
  | Eq => if Z.even q then q else (q + 1)%Z
  end.

(** [num / den], which lies in [[10^(p-1), 10^p)], rounded to [n]
    significant digits: the digits as an integer and the position of the
    decimal point. *)
Definition round_digits (num den p n : Z) : Z * Z :=
  let s := (n - p)%Z in
  let r := if (0 <=? s)%Z then round_div (num * 10 ^ s) den
           else round_div num (den * 10 ^ (- s)) in
  if (r =? 10 ^ n)%Z then (10 ^ (n - 1), p + 1)%Z else (r, p).

Fixpoint shortest_digits (fuel : nat) (x : float) (num den p n : Z)
  : Z * Z * Z :=
  let '(r, p') := round_digits num den p n in
  match fuel with
  | O => (r, p', n)
  | S fuel' =>
    if float_eqb (float_of_decimal false (Z.to_N r) (p' - n)) x
    then (r, p', n)
    else shortest_digits fuel' x num den p (n + 1)
  end.

Fixpoint strip_zeros (rev_digits : text) : text :=
  match rev_digits with
  | c :: (_ :: _) as rest => if c =? 48 then strip_zeros rest else rev_digits
  | _ => rev_digits
  end.

Definition zeros (n : Z) : text := repeat 48 (Z.to_nat n).

Definition decimal (z : Z) : text :=
  str (NilZero.string_of_int (Z.to_int z)).

Definition format_repr (ds : text) (p : Z) : text :=
  let n := Z.of_nat (length ds) in
  if (p <=? -4)%Z || (16 <? p)%Z then
    let mantissa := match ds with
                    | [d] => [d]
                    | d :: rest => d :: 46 :: rest
                    | [] => []
                    end in
    let e := (p - 1)%Z in
    let edigits := decimal (Z.abs e) in
    mantissa ++ [101; if (e <? 0)%Z then 45 else 43]
    ++ (if (Z.abs e <? 10)%Z then 48 :: edigits else edigits)
  else if (p <=? 0)%Z then [48; 46] ++ zeros (- p) ++ ds
  else if (n <=? p)%Z then ds ++ zeros (p - n) ++ [46; 48]
  else firstn (Z.to_nat p) ds ++ [46] ++ skipn (Z.to_nat p) ds.

Definition float_repr_shortest (x : float) : text :=
  match x with
  | S754_zero s => if s then [45; 48; 46; 48] else [48; 46; 48]
  | S754_infinity s => if s then [45; 105; 110; 102] else [105; 110; 102]
  | S754_nan => [110; 97; 110]
  | S754_finite s m e =>
    let '(num, den) := if (0 <=? e)%Z then (Zpos m * 2 ^ e, 1)%Z
                       else (Zpos m, 2 ^ (- e))%Z in
    let p := find_decpt 640 num den (-324) in
    let '(r, p', _) := shortest_digits 16 (S754_finite false m e) num den p 1 in
    (if s then [45] else [])
    ++ format_repr (rev (strip_zeros (rev (decimal r)))) p'
  end.

(** The decimal digits outside ASCII, as Unicode 14.0 has them: each run of
    ten starts at one of these code points. *)
Definition unicode14_digit_zeros : list N :=
  [0x660; 0x6f0; 0x7c0; 0x966; 0x9e6; 0xa66; 0xae6; 0xb66; 0xbe6; 0xc66;
   0xce6; 0xd66; 0xde6; 0xe50; 0xed0; 0xf20; 0x1040; 0x1090; 0x17e0;
   0x1810; 0x1946; 0x19d0; 0x1a80; 0x1a90; 0x1b50; 0x1bb0; 0x1c40; 0x1c50;
   0xa620; 0xa8d0; 0xa900; 0xa9d0; 0xa9f0; 0xaa50; 0xabf0; 0xff10;
   0x104a0; 0x10d30; 0x11066; 0x110f0; 0x11136; 0x111d0; 0x112f0; 0x11450;
   0x114d0; 0x11650; 0x116c0; 0x11730; 0x118e0; 0x11950; 0x11c50; 0x11d50;
   0x11da0; 0x16a60; 0x16ac0; 0x16b50; 0x1d7ce; 0x1d7d8; 0x1d7e2; 0x1d7ec;
   0x1d7f6; 0x1e140; 0x1e2f0; 0x1e950; 0x1fbf0].

Definition unicode14_todecimal (c : N) : option N :=
  match find (fun z => (z <=? c) && (c <? z + 10)) unicode14_digit_zeros with
  | Some z => Some (c - z)
  | None => None
  end.

Section PathwayPipeline.

(** ** Parts of the Python runtime taken as parameters

    [float_repr] is [float.__repr__] on finite values; [unicode_todecimal]
    is the table of decimal digits outside ASCII that [int] and [float]
    consult when they are given a [str]: the digit a character stands for,
    if it stands for one. *)

Variable float_repr : spec_float -> list N.
Variable unicode_todecimal : N -> option N.

(** ** The builtins [int] and [float] *)

(** [Py_ISSPACE], the white space that the number parsers skip. *)
Definition c_isspace (c : char) : bool :=
  ((9 <=? c) && (c <=? 13)) || (c =? 32).

Fixpoint c_lstrip (s : text) : text :=
  match s with
  | [] => []
  | c :: s' => if c_isspace c then c_lstrip s' else s
  end.

Definition c_rstrip (s : text) : text := rev (c_lstrip (rev s)).

(** Before a [str] is parsed as a number, a text that is not pure ASCII has
    its white space turned into spaces and its decimal digits into ASCII
    digits; anything else outside ASCII becomes a question mark, which no
    number contains. *)
Definition to_ascii_char (c : char) : char :=
  if c <? 127 then c
  else if isspace c then 32
  else match unicode_todecimal c with
       | Some d => 48 + d
       | None => ch "?"
       end.

Definition transform_decimal_and_space (s : text) : text :=
  if forallb (fun c => c <? 128) s then s else map to_ascii_char s.

(** Digits with single underscores between them; [prev] is the character
    before [s]. *)
Fixpoint scan_int_digits (prev : char) (acc : list N) (s : text)
  : option (list N * text) :=
  match s with
  | [] => if prev =? ch "_" then None else Some (acc, [])
  | c :: s' =>
    if is_digit c then scan_int_digits c (acc ++ [c - 48]) s'
    else if c =? ch "_" then
      if prev =? ch "_" then None else scan_int_digits c acc s'
    else if prev =? ch "_" then None else Some (acc, s)
  end.

Definition take_sign (s : text) : bool * text :=
  match s with
  | c :: r =>
    if c =? ch "-" then (true, r)
    else if c =? ch "+" then (false, r)
    else (false, s)
  | [] => (false, s)
  end.

(** [int(s)] for a [str] [s], in base 10. *)
Definition int_of_str (s : text) : result Z :=
  let '(neg, s2) := take_sign (c_lstrip (transform_decimal_and_space s)) in
  match s2 with
  | [] => Raise ValueError
  | c :: _ =>
    if c =? ch "_" then Raise ValueError else
    match scan_int_digits 0 [] s2 with
    | None => Raise ValueError
    | Some ([], _) => Raise ValueError
    | Some (ds, r) =>
      if (MAX_STR_DIGITS <? length ds)%nat then Raise ValueError
      else match c_lstrip r with
           | [] => Ok (cond_Zopp neg (Z.of_N (digits_value ds)))
           | _ :: _ => Raise ValueError
           end
    end
  end.

(** Underscores in a [float] literal must stand between two digits; they
    are dropped before the literal is read. *)
Fixpoint drop_underscores (prev : char) (s : text) : option text :=
  match s with
  | [] => if prev =? ch "_" then None else Some []
  | c :: s' =>
    if c =? ch "_" then
      if is_digit prev then drop_underscores c s' else None
    else if (prev =? ch "_") && negb (is_digit c) then None
    else option_map (cons c) (drop_underscores c s')
  end.

Definition lower (c : char) : char :=
  if (65 <=? c) && (c <=? 90) then c + 32 else c.

(** A decimal literal from [s], all of which has to be used: digits, an
    optional dot and digits, with a digit on at least one side of the dot,
    and an optional exponent. *)
Definition decimal_literal (neg : bool) (s : text) : option float :=
  let '(ids, r1) := span_digits s in
  let '(fds, r2) :=
    match r1 with
    | c :: r => if c =? ch "." then span_digits r else ([], r1)
    | [] => ([], r1)
    end in
  match ids ++ fds with
  | [] => None
  | _ :: _ =>
    let '(e, r3) :=
      match r2 with
      | c :: r =>
        if (c =? ch "e") || (c =? ch "E") then
          let '(eneg, r') := take_sign r in
          match span_digits r' with
          | ([], _) => (0%Z, r2)
          | (eds, r'') => (cond_Zopp eneg (Z.of_N (digits_value eds)), r'')
          end
        else (0%Z, r2)
      | [] => (0%Z, r2)
      end in
    match r3 with
    | [] => Some (float_of_decimal neg (digits_value (ids ++ fds))
                                   (e - Z.of_nat (length fds)))
    | _ :: _ => None
    end
  end.

(** [float(s)] for a [str] [s]. *)
Definition float_of_str (s : text) : result float :=
  let s1 := c_rstrip (c_lstrip (transform_decimal_and_space s)) in
  match drop_underscores 0 s1 with
  | None => Raise ValueError
  | Some s2 =>
    let '(neg, s3) := take_sign s2 in
    let word := map lower s3 in
    if text_eqb word (str "inf") || text_eqb word (str "infinity")
    then Ok (S754_infinity neg)
    else if text_eqb word (str "nan") then Ok S754_nan
    else match decimal_literal neg s3 with
         | Some f => Ok f
         | None => Raise ValueError
         end
  end.

(** [int(v)] *)
Definition py_int (v : pyobj) : result Z :=
  match v with
  | PyInt z => Ok z
  | PyBool b => Ok (if b then 1 else 0)%Z
  | PyFloat f => float_trunc f
  | PyStr s => int_of_str s
  | PyNone | PyList _ | PyDict _ => Raise TypeError
  end.

(** [float(v)] *)
Definition py_float (v : pyobj) : result float :=
  match v with
  | PyFloat f => Ok f
  | PyInt z =>
    let f := float_of_Z z in
    if is_finite f then Ok f else Raise OverflowError
  | PyBool b => Ok (float_of_Z (if b then 1 else 0))
  | PyStr s => float_of_str s
  | PyNone | PyList _ | PyDict _ => Raise TypeError
  end.

(** [row.get(key, default)]: only a [dict] has the method. *)
Definition dict_get (row : pyobj) (key : text) (default : pyobj)
  : result pyobj :=
  match row with
  | PyDict d =>
    Ok (match dict_lookup d key with Some v => v | None => default end)
  | _ => Raise AttributeError
  end.

(** ** [json.dumps], with its default settings *)

Definition hex_digit (n : N) : char :=
  if n <? 10 then 48 + n else 87 + n.

(** [u] followed by four hexadecimal digits, as in [format(n, "04x")]. *)
Definition u_escape (n : N) : text :=
  [BACKSLASH; ch "u"; hex_digit (n / 4096 mod 16); hex_digit (n / 256 mod 16);
   hex_digit (n / 16 mod 16); hex_digit (n mod 16)].

Definition escape_char (c : char) : text :=
  if c =? BACKSLASH then [BACKSLASH; BACKSLASH]
  else if c =? QUOTE then [BACKSLASH; QUOTE]
  else if (32 <=? c) && (c <=? 126) then [c]
  else if c =? 8 then [BACKSLASH; ch "b"]
  else if c =? 12 then [BACKSLASH; ch "f"]
  else if c =? 10 then [BACKSLASH; ch "n"]
  else if c =? 13 then [BACKSLASH; ch "r"]
  else if c =? 9 then [BACKSLASH; ch "t"]
  else if c <? 0x10000 then u_escape c
  else
    let n := c - 0x10000 in
    u_escape (0xD800 + n / 1024 mod 1024) ++ u_escape (0xDC00 + n mod 1024).

Definition encode_basestring_ascii (s : text) : text :=
  QUOTE :: flat_map escape_char s ++ [QUOTE].

(** [int.__repr__] *)
Definition int_repr (z : Z) : text :=
  str (NilZero.string_of_int (Z.to_int z)).

Definition floatstr (f : float) : text :=
  match f with
  | S754_nan => str "NaN"
  | S754_infinity false => str "Infinity"
  | S754_infinity true => str "-Infinity"
  | _ => float_repr f
  end.

Fixpoint join (sep : text) (parts : list text) : text :=
  match parts with
  | [] => []
  | [x] => x
  | x :: rest => x ++ sep ++ join sep rest
  end.

Fixpoint json_dumps (v : pyobj) : text :=
  match v with
  | PyNone => str "null"
  | PyBool true => str "true"
  | PyBool false => str "false"
  | PyInt z => int_repr z
  | PyFloat f => floatstr f
  | PyStr s => encode_basestring_ascii s
  | PyList l => ch "[" :: join (str ", ") (map json_dumps l) ++ [ch "]"]
  | PyDict d =>
    ch "{" ::
    join (str ", ")
         (map (fun kv => match kv with
                         | (k, x) =>
                           encode_basestring_ascii k ++ str ": " ++ json_dumps x
                         end) d)
    ++ [ch "}"]
  end.

(** ** Risk detection functions *)

Definition detect_aqi_risk (aqi : Z) : text :=
  if (aqi >? 150)%Z then str "🔴 UNSAFE AIR — Avoid outdoor activity"
  else if (aqi >? 100)%Z
  then str "🟡 MODERATE — Sensitive groups should be cautious"
  else str "🟢 GOOD — Air quality is safe".

Definition detect_temp_risk (temp : float) : text :=
  if float_gt temp 40
  then str "🔴 HEAT RISK — Stay hydrated, avoid direct sun"
  else if float_gt temp 35 then str "🟡 WARM — Drink water regularly"
  else str "🟢 NORMAL — Temperature is comfortable".

Definition detect_humidity_risk (humidity : Z) : text :=
  if (humidity >? 80)%Z
  then str "🔴 HIGH MOISTURE ALERT — Risk of mold, heat stress"
  else if (humidity >? 60)%Z then str "🟡 ELEVATED — Monitor for discomfort"
  else str "🟢 NORMAL — Humidity is comfortable".

Definition compute_overall_status (aqi : Z) (temp : float) (humidity : Z)
  : text :=
  if (aqi >? 150)%Z || float_gt temp 40 || (humidity >? 80)%Z
  then str "UNSAFE"
  else if (aqi >? 100)%Z || float_gt temp 35 || (humidity >? 60)%Z
  then str "CAUTION"
  else str "SAFE".

(** ** The streaming engine *)

(** [PathwaySimulator._transform_row] *)
Definition _transform_row (row : pyobj) : result pyobj :=
  a <- dict_get row (str "aqi") (PyInt 0) ;;
  aqi <- py_int a ;;
  t <- dict_get row (str "temperature_c") (PyInt 0) ;;
  temp <- py_float t ;;
  h <- dict_get row (str "humidity_pct") (PyInt 0) ;;
  humid <- py_int h ;;
  timestamp <- dict_get row (str "timestamp") (PyStr (str "")) ;;
  sensor_id <- dict_get row (str "sensor_id") (PyStr (str "UNKNOWN")) ;;
  Ok (PyDict
        [ (str "timestamp", timestamp);
          (str "sensor_id", sensor_id);
          (str "aqi", PyInt aqi);
          (str "temperature_c", PyFloat temp);
          (str "humidity_pct", PyInt humid);
          (str "aqi_status", PyStr (detect_aqi_risk aqi));
          (str "temp_status", PyStr (detect_temp_risk temp));
          (str "humidity_status", PyStr (detect_humidity_risk humid));
          (str "overall_status",
           PyStr (compute_overall_status aqi temp humid)) ]).

(** [enriched[key]], for a key that [_transform_row] sets. *)
Definition item (enriched : pyobj) (key : text) : pyobj :=
  match enriched with
  | PyDict d => match dict_lookup d key with Some v => v | None => PyNone end
  | _ => PyNone
  end.

(** The icon table of [run], with its default. *)
Definition status_icon (status : pyobj) : text :=
  match status with
  | PyStr s =>
    if text_eqb s (str "SAFE") then str "🟢"
    else if text_eqb s (str "CAUTION") then str "🟡"
    else if text_eqb s (str "UNSAFE") then str "🔴"
    else str "⚪"
  | _ => str "⚪"
  end.

(** What the engine does to the world, in order: the lines it prints and
    the sleeps it takes.  A printed line is kept as the values it is
    formatted from. *)
Inductive event : Type :=
| PrintStarted
| PrintWatching
| PrintWriting
| PrintPollRate (poll_interval : pyobj)
| PrintWaiting
| PrintRow (row_count : nat) (icon : text) (enriched : pyobj)
| PrintSkipped
| Sleep (seconds : pyobj).

(** The simulator ([poll_interval], [_file_offset]), the local [row_count]
    of [run], the output file (absent, or the text written to it so far)
    and the events so far.  The input file is not part of the state: it
    belongs to the producer, and each iteration is given what it finds
    there.  The two paths are taken to be different files. *)
Record state : Type := {
  poll_interval : pyobj;
  _file_offset : nat;
  row_count : nat;
  output_file : option text;
  trace : list event
}.

Definition M (A : Type) : Type := state -> result A * state.

Definition ret {A} (a : A) : M A := fun st => (Ok a, st).

Definition bind {A B} (m : M A) (k : A -> M B) : M B :=
  fun st =>
    match m st with
    | (Ok a, st') => k a st'
    | (Raise e, st') => (Raise e, st')
    end.

Definition lift {A} (r : result A) : M A := fun st => (r, st).

Definition get : M state := fun st => (Ok st, st).

Definition modify (f : state -> state) : M unit := fun st => (Ok tt, f st).

Notation "x <~ m ;; k" := (bind m (fun x => k))
  (at level 61, m at next level, right associativity).
Notation "' pat <~ m ;; k" :=
  (bind m (fun x => match x with pat => k end))
  (at level 61, pat pattern, m at next level, right associativity).
Notation "m ;;; k" := (bind m (fun _ => k))
  (at level 61, right associativity).

(** [try: body except json.JSONDecodeError: handler] *)
Definition try_except_JSONDecodeError (body handler : M unit) : M unit :=
  fun st =>
    match body st with
    | (Raise JSONDecodeError, st') => handler st'
    | other => other
    end.

Fixpoint for_each {A} (body : A -> M unit) (l : list A) : M unit :=
  match l with
  | [] => ret tt
  | x :: l' => body x ;;; for_each body l'
  end.

Definition add_event (e : event) (st : state) : state :=
  {| poll_interval := poll_interval st; _file_offset := _file_offset st;
     row_count := row_count st; output_file := output_file st;
     trace := trace st ++ [e] |}.

Definition with_file_offset (n : nat) (st : state) : state :=
  {| poll_interval := poll_interval st; _file_offset := n;
     row_count := row_count st; output_file := output_file st;
     trace := trace st |}.

Definition with_row_count (n : nat) (st : state) : state :=
  {| poll_interval := poll_interval st; _file_offset := _file_offset st;
     row_count := n; output_file := output_file st;
     trace := trace st |}.

Definition content (f : option text) : text :=
  match f with
  | Some t => t
  | None => []
  end.

(** Appending to a file creates it if it is not there. *)
Definition with_appended (t : text) (st : state) : state :=
  {| poll_interval := poll_interval st; _file_offset := _file_offset st;
     row_count := row_count st;
     output_file := Some (content (output_file st) ++ t);
     trace := trace st |}.

Definition print (e : event) : M unit := modify (add_event e).

Definition sleep (seconds : pyobj) : M unit := print (Sleep seconds).

Definition set_file_offset (n : nat) : M unit := modify (with_file_offset n).

Definition set_row_count (n : nat) : M unit := modify (with_row_count n).

(** [open(self.output_file, "a")] and one [write]. *)
Definition append_output (t : text) : M unit := modify (with_appended t).

(** [PathwaySimulator.__init__]: [existing] is the output file found at
    start-up. *)
Definition __init__ (interval : pyobj) (existing : option text) : state :=
  {| poll_interval := interval;
     _file_offset := 0;
     row_count := 0;
     output_file := match existing with
                    | Some _ => None
                    | None => None
                    end;
     trace := [PrintStarted; PrintWatching; PrintWriting;
               PrintPollRate interval] |}.

(** The [with open(self.input_file, ...)] block of [run]: seek to the
    offset, read every line that is left, tell the new offset.  Seeking
    beyond the end of the file reads nothing and stays where it is. *)
Definition poll (input : list Byte.byte) (offset : nat)
  : result (list text * nat) :=
  t <- utf8_decode (skipn offset input) ;;
  Ok (readlines t, Nat.max offset (length input)).

(** The body of [for line in new_lines]. *)
Definition process_line (line : text) : M unit :=
  let line := strip line in
  match line with
  | [] => ret tt
  | _ :: _ =>
    try_except_JSONDecodeError
      (raw_row <~ lift (json_loads line) ;;
       enriched <~ lift (_transform_row raw_row) ;;
       st <~ get ;;
       set_row_count (S (row_count st)) ;;;
       append_output (json_dumps enriched ++ [LF]) ;;;
       print (PrintRow (S (row_count st))
                       (status_icon (item enriched (str "overall_status")))
                       enriched))
      (print PrintSkipped)
  end.

(** One iteration of [while True], given the input file as it is found:
    [None] when it does not exist. *)
Definition iteration (input : option (list Byte.byte)) : M unit :=
  match input with
  | None => print PrintWaiting ;;; sleep (PyInt 1)
  | Some bytes =>
    st <~ get ;;
    '(new_lines, offset) <~ lift (poll bytes (_file_offset st)) ;;
    set_file_offset offset ;;;
    for_each process_line new_lines ;;;
    sleep (poll_interval st)
  end.

(** The first iterations of the loop, one for each observation of the input
    file. *)
Fixpoint run_loop (inputs : list (option (list Byte.byte))) : M unit :=
  match inputs with
  | [] => ret tt
  | input :: rest => iteration input ;;; run_loop rest
  end.

(** [PathwaySimulator.run] *)
Definition run (inputs : list (option (list Byte.byte))) : M unit :=
  set_row_count 0 ;;; run_loop inputs.

(** [run_pipeline]: the engine is built with poll interval 0.5 and run. *)
Definition run_pipeline (existing : option text)
    (inputs : list (option (list Byte.byte))) : result unit * state :=
  run inputs (__init__ (PyFloat (float_of_decimal false 5 (-1))) existing).

(** ** Notions the properties are stated with *)

Definition is_prefix (p s : text) : bool :=
  match strip_prefix p s with
  | Some _ => true
  | None => false
  end.

(** A label of a per-dimension classifier is in a tier when it starts with
    the icon that [run] shows for that tier. *)
Definition has_tier (label tier : text) : bool :=
  is_prefix (status_icon (PyStr tier)) label.

(** The overall status as the specification words it: from the tiers of
    the three labels. *)
Definition overall_status_spec (aqi : Z) (temp : float) (humidity : Z)
  : text :=
  let labels := [detect_aqi_risk aqi; detect_temp_risk temp;
                 detect_humidity_risk humidity] in
  if existsb (fun l => has_tier l (str "UNSAFE")) labels then str "UNSAFE"
  else if existsb (fun l => has_tier l (str "CAUTION")) labels
  then str "CAUTION"
  else str "SAFE".

Definition is_line_break (c : char) : bool := (c =? LF) || (c =? CR).

Definition no_line_break (t : text) : bool :=
  forallb (fun c => negb (is_line_break c)) t.

(** A text that is empty or ends with a line break holds complete lines
    only. *)
Definition complete_lines (t : text) : bool := is_line_break (last t LF).

Definition ends_with_LF (l : text) : bool := last l 0 =? LF.

Definition starts_with_LF (t : text) : bool :=
  match t with
  | c :: _ => c =? LF
  | [] => false
  end.

(** The line of the output log that one enriched record makes. *)
Definition serialize (enriched : pyobj) : text := json_dumps enriched ++ [LF].

(** [reading r e]: the bytes [r] are one line of the input log, without its
    line break, that the engine reads as a record and enriches to [e]. *)
Definition reading (r : list Byte.byte) (e : pyobj) : Prop :=
  exists t row,
    utf8_decode r = Ok t /\ no_line_break t = true /\ strip t <> []
    /\ json_loads (strip t) = Ok row /\ _transform_row row = Ok e.

(** A line of text that the engine turns into the record [e]. *)
Definition row_line (t : text) (e : pyobj) : Prop :=
  strip t <> [] /\
  exists row, json_loads (strip t) = Ok row /\ _transform_row row = Ok e.

Definition newline : list Byte.byte := [Byte.x0a].

(** What the producer writes for a batch of readings: each one and a line
    feed. *)
Definition batch_bytes (b : list (list Byte.byte)) : list Byte.byte :=
  concat (map (fun r => r ++ newline) b).

(** The input file as successive polls find it while the producer appends
    batch after batch to what is [written]. *)
Fixpoint snapshots (written : list Byte.byte)
    (batches : list (list (list Byte.byte)))
  : list (option (list Byte.byte)) :=
  match batches with
  | [] => []
  | b :: rest =>
    let w := written ++ batch_bytes b in
    Some w :: snapshots w rest
  end.

(** The input file as successive polls find it while it grows chunk by
    chunk, wherever the chunks end. *)
Fixpoint growing (written : list Byte.byte) (chunks : list (list Byte.byte))
  : list (option (list Byte.byte)) :=
  match chunks with
  | [] => []
  | c :: rest =>
    let w := written ++ c in
    Some w :: growing w rest
  end.

(** The lines that a poll makes of a chunk. *)
Definition chunk_lines (c : list Byte.byte) : list text :=
  match utf8_decode c with
  | Ok t => readlines t
  | Raise _ => []
  end.

(** What the body of the loop over the lines makes of one line: nothing,
    a record, or an exception that escapes. *)
Inductive line_outcome : Type :=
| NoRecord
| Record (enriched : pyobj)
| Escapes (x : exn).

Definition outcome_of (line : text) : line_outcome :=
  match strip line with
  | [] => NoRecord
  | s =>
    match json_loads s with
    | Ok row =>
      match _transform_row row with
      | Ok e => Record e
      | Raise x => Escapes x
      end
    | Raise JSONDecodeError => NoRecord
    | Raise x => Escapes x
    end
  end.

(** The records of a sequence of lines, first to last, up to the first
    line whose exception escapes; and that exception. *)
Fixpoint records_of (lines : list text) : list pyobj :=
  match lines with
  | [] => []
  | l :: rest =>
    match outcome_of l with
    | NoRecord => records_of rest
    | Record e => e :: records_of rest
    | Escapes _ => []
    end
  end.

Fixpoint first_escape (lines : list text) : option exn :=
  match lines with
  | [] => None
  | l :: rest =>
    match outcome_of l with
    | Escapes x => Some x
    | _ => first_escape rest
    end
  end.

Definition escape_result (o : option exn) : result unit :=
  match o with
  | None => Ok tt
  | Some x => Raise x
  end.

(** A field of a raw reading that [int] accepts without looking at a
    string: absent, or an [int], a [bool] or a finite [float]. *)
Definition int_field_ok (o : option pyobj) : bool :=
  match o with
  | None => true
  | Some (PyInt _) | Some (PyBool _) => true
  | Some (PyFloat f) => is_finite f
  | Some _ => false
  end.

(** The same for [float]: absent, or a [float], a [bool] or an [int] within
    the range of binary64. *)
Definition float_field_ok (o : option pyobj) : bool :=
  match o with
  | None => true
  | Some (PyFloat _) | Some (PyBool _) => true
  | Some (PyInt z) => is_finite (float_of_Z z)
  | Some _ => false
  end.

Definition is_raise {A} (r : result A) : bool :=
  match r with
  | Ok _ => false
  | Raise _ => true
  end.

(** A field that is there and is not a number: [null], a list, an object,
    or a string that does not spell a number. *)
Definition int_field_bad (o : option pyobj) : bool :=
  match o with
  | Some PyNone | Some (PyList _) | Some (PyDict _) => true
  | Some (PyStr s) => is_raise (int_of_str s)
  | _ => false
  end.

Definition float_field_bad (o : option pyobj) : bool :=
  match o with
  | Some PyNone | Some (PyList _) | Some (PyDict _) => true
  | Some (PyStr s) => is_raise (float_of_str s)
  | _ => false
  end.

(** The state once the engine has counted, written and reported the
    record [e]. *)
Definition emit_row (e : pyobj) (st : state) : state :=
  add_event
    (PrintRow (S (row_count st))
              (status_icon (item e (str "overall_status"))) e)
    (with_appended (serialize e) (with_row_count (S (row_count st)) st)).

(** The state after a batch of records. *)
Definition emit_rows (es : list pyobj) (st : state) : state :=
  fold_left (fun s e => emit_row e s) es st.

(** [st'] comes after [st] in a run: the cursor has not moved back, and the
    output file is what it was followed by whole serialized records. *)
Definition extends (st st' : state) : Prop :=
  (_file_offset st <= _file_offset st')%nat
  /\ exists es,
       content (output_file st')
       = content (output_file st) ++ flat_map serialize es
       /\ Forall (fun e => exists row, _transform_row row = Ok e) es.

(** [row.get(key, 0)] on the fields of a [dict]. *)
Definition get_or_zero (o : option pyobj) : pyobj :=
  match o with
  | Some v => v
  | None => PyInt 0
  end.

(** Sample input, written with an apostrophe where the file has a double
    quote. *)
Definition quoted (s : string) : list Byte.byte :=
  map (fun b => if Byte.eqb b Byte.x27 then Byte.x22 else b)
      (list_byte_of_string s).

Definition valid1 : list Byte.byte :=
  quoted "{'timestamp':'T1','aqi':200,'temperature_c':42.0,'humidity_pct':90,'sensor_id':'S1'}".

Definition valid2 : list Byte.byte :=
  quoted "{'timestamp': 'T2', 'aqi': 150, 'temperature_c': 35.1, 'humidity_pct': 80, 'sensor_id': 'S2'}".

Definition valid3 : list Byte.byte :=
  quoted "{'timestamp': 'T3', 'aqi': 42, 'temperature_c': 21.5, 'humidity_pct': 40, 'sensor_id': 'S3'}".

Definition not_json : list Byte.byte := quoted "{not json".

Definition torn_head : list Byte.byte :=
  quoted "{'timestamp': 'T2', 'aqi': 15".

Definition torn_rest : list Byte.byte :=
  quoted "0, 'temperature_c': 35.1, 'humidity_pct': 80, 'sensor_id': 'S2'}".

Definition torn_tail : list Byte.byte := torn_rest ++ newline.

Definition missing_aqi : list Byte.byte :=
  quoted "{'timestamp':'T4','temperature_c':42.0,'humidity_pct':90,'sensor_id':'S4'}".

Definition text_aqi : list Byte.byte :=
  quoted "{'timestamp':'T5','aqi':'high','temperature_c':42.0,'humidity_pct':90,'sensor_id':'S5'}".

Definition half_second : pyobj := PyFloat (float_of_decimal false 5 (-1)).

(** The text of a sample, the row that [json.loads] makes of a sample line
    and the record that the transformer makes of it, for samples that are
    readings. *)
Definition sample_text (r : list Byte.byte) : text :=
  match utf8_decode r with
  | Ok t => t
  | Raise _ => []
  end.

Definition sample_row (r : list Byte.byte) : pyobj :=
  match json_loads (strip (sample_text r)) with
  | Ok row => row
  | Raise _ => PyNone
  end.

Definition sample_dict (r : list Byte.byte) : list (text * pyobj) :=
  match sample_row r with
  | PyDict d => d
  | _ => []
  end.

Definition enrich (r : list Byte.byte) : pyobj :=
  match _transform_row (sample_row r) with
  | Ok e => e
  | Raise _ => PyNone
  end.

Functional Scheme utf8_decode_ind := Induction for utf8_decode Sort Prop.
Functional Scheme translate_newlines_ind :=
  Induction for translate_newlines Sort Prop.
Functional Scheme scanstring_ind := Induction for scanstring Sort Prop.

(** * Properties *)

Unset Implicit Arguments.

(** ** Text *)

Lemma rmap_rmap {A B C} (f : A -> B) (g : B -> C) (r : result A) :
  rmap g (rmap f r) = rmap (fun a => g (f a)) r.
Proof. destruct r; reflexivity. Qed.

Ltac break_match_hyp :=
  match goal with
  | H : context [match ?x with _ => _ end] |- _ => destruct x eqn:?
  end.

Ltac rewrite_tests :=
  repeat match goal with
         | H : _ = true |- _ => rewrite H; clear H
         | H : _ = false |- _ => rewrite H; clear H
         end.

Lemma utf8_decode_app (a b : list Byte.byte) (ta : text) :
  utf8_decode a = Ok ta ->
  utf8_decode (a ++ b) = rmap (app ta) (utf8_decode b).
Proof.
  revert ta.
  functional induction (utf8_decode a); intros ta H; try discriminate.
  - inversion H; subst. simpl. destruct (utf8_decode b); reflexivity.
  - destruct (utf8_decode r0) as [t0|] eqn:E0; try discriminate.
    inversion H; subst. cbn [app utf8_decode]. rewrite_tests.
    rewrite (IHr t0 eq_refl). rewrite rmap_rmap. reflexivity.
  - destruct (utf8_decode r1) as [t0|] eqn:E0; try discriminate.
    inversion H; subst. cbn [app utf8_decode]. rewrite_tests.
    rewrite (IHr t0 eq_refl). rewrite rmap_rmap. reflexivity.
  - destruct (utf8_decode r2) as [t0|] eqn:E0; try discriminate.
    inversion H; subst. cbn [app utf8_decode]. rewrite_tests.
    rewrite (IHr t0 eq_refl). rewrite rmap_rmap. reflexivity.
  - destruct (utf8_decode r3) as [t0|] eqn:E0; try discriminate.
    inversion H; subst. cbn [app utf8_decode]. rewrite_tests.
    rewrite (IHr t0 eq_refl). rewrite rmap_rmap. reflexivity.
Qed.

Lemma translate_newlines_app (a b : text) :
  starts_with_LF b = false ->
  translate_newlines (a ++ b) = translate_newlines a ++ translate_newlines b.
Proof.
  intros Hb.
  functional induction (translate_newlines a); cbn [app translate_newlines].
  - reflexivity.
  - rewrite_tests. destruct b as [|d b']; [reflexivity|].
    cbn [starts_with_LF] in Hb. cbn [app]. rewrite Hb. reflexivity.
  - rewrite_tests. rewrite IHt. reflexivity.
  - rewrite_tests. cbn [app translate_newlines] in IHt. rewrite IHt.
    reflexivity.
  - rewrite_tests. rewrite IHt. reflexivity.
Qed.

Lemma translate_newlines_id (t : text) :
  forallb (fun c => negb (c =? CR)) t = true -> translate_newlines t = t.
Proof.
  induction t as [|c t IH]; cbn [forallb translate_newlines]; [reflexivity|].
  intros H. apply andb_true_iff in H as [Hc Ht].
  apply negb_true_iff in Hc. rewrite Hc, (IH Ht). reflexivity.
Qed.

Lemma no_line_break_no_CR (t : text) :
  no_line_break t = true -> forallb (fun c => negb (c =? CR)) t = true.
Proof.
  unfold no_line_break, is_line_break.
  induction t as [|c t IH]; cbn [forallb]; [reflexivity|].
  intros H. apply andb_true_iff in H as [Hc Ht].
  apply negb_true_iff, orb_false_iff in Hc as [_ Hc].
  rewrite Hc, (IH Ht). reflexivity.
Qed.

Lemma no_line_break_no_LF (t : text) :
  no_line_break t = true -> forallb (fun c => negb (c =? LF)) t = true.
Proof.
  unfold no_line_break, is_line_break.
  induction t as [|c t IH]; cbn [forallb]; [reflexivity|].
  intros H. apply andb_true_iff in H as [Hc Ht].
  apply negb_true_iff, orb_false_iff in Hc as [Hc _].
  rewrite Hc, (IH Ht). reflexivity.
Qed.

Lemma no_line_break_starts (t : text) :
  no_line_break t = true -> starts_with_LF t = false.
Proof.
  intros H. apply no_line_break_no_LF in H.
  destruct t as [|c t]; [reflexivity|]. cbn in *.
  apply andb_true_iff in H as [Hc _]. now apply negb_true_iff in Hc.
Qed.

(** A line without line feed, then a line feed: one line, whatever
    follows. *)
Lemma split_lines_line (t cur rest : text) :
  forallb (fun c => negb (c =? LF)) t = true ->
  split_lines cur (t ++ LF :: rest) = (cur ++ t ++ [LF]) :: split_lines [] rest.
Proof.
  revert cur. induction t as [|c t IH]; intros cur H.
  - cbn. reflexivity.
  - cbn [forallb] in H. apply andb_true_iff in H as [Hc Ht].
    apply negb_true_iff in Hc. cbn [app split_lines]. rewrite Hc.
    rewrite (IH _ Ht). rewrite <- app_assoc. reflexivity.
Qed.

Lemma split_lines_partial (p cur : text) :
  forallb (fun c => negb (c =? LF)) p = true ->
  split_lines cur p = match cur ++ p with [] => [] | l => [l] end.
Proof.
  revert cur. induction p as [|c p IH]; intros cur H.
  - cbn. rewrite app_nil_r. destruct cur; reflexivity.
  - cbn [forallb] in H. apply andb_true_iff in H as [Hc Ht].
    apply negb_true_iff in Hc. cbn [split_lines]. rewrite Hc.
    rewrite (IH _ Ht). rewrite <- app_assoc. reflexivity.
Qed.

(** Splitting goes through a line feed. *)
Lemma split_lines_app (a b cur : text) :
  split_lines cur (a ++ LF :: b)
  = split_lines cur (a ++ [LF]) ++ split_lines [] b.
Proof.
  revert cur. induction a as [|c a IH]; intros cur.
  - cbn. reflexivity.
  - cbn [app split_lines]. destruct (c =? LF).
    + rewrite IH. reflexivity.
    + apply IH.
Qed.

Lemma last_app_cons {A} (a b : list A) (c d : A) :
  last (a ++ c :: b) d = last (c :: b) d.
Proof.
  induction a as [|x a IH]; [reflexivity|].
  cbn [app]. rewrite <- IH. destruct a; reflexivity.
Qed.

Lemma split_lines_complete (x cur : text) :
  ends_with_LF (cur ++ x) = true -> (x = [] -> cur = []) ->
  Forall (fun l => ends_with_LF l = true) (split_lines cur x).
Proof.
  revert cur. induction x as [|c x IH]; intros cur H Hx.
  - rewrite (Hx eq_refl). constructor.
  - cbn [split_lines]. destruct (c =? LF) eqn:Ec.
    + apply N.eqb_eq in Ec. subst c. constructor.
      * unfold ends_with_LF. rewrite last_last. reflexivity.
      * destruct x as [|d x]; [constructor|]. apply IH.
        -- unfold ends_with_LF in *. cbn [app].
           rewrite last_app_cons in H. exact H.
        -- discriminate.
    + apply IH.
      * rewrite <- app_assoc. exact H.
      * intros ->. unfold ends_with_LF in H. rewrite last_last in H.
        congruence.
Qed.

Lemma last_cons {A} (x d : A) (l : list A) :
  l <> [] -> last (x :: l) d = last l d.
Proof. destruct l; [congruence|reflexivity]. Qed.

Lemma translate_newlines_nonempty (t : text) :
  t <> [] -> translate_newlines t <> [].
Proof.
  destruct t as [|c t]; [congruence|]. intros _. cbn [translate_newlines].
  destruct (c =? CR); [destruct t as [|d t]; [|destruct (d =? LF)]|];
    discriminate.
Qed.

(** Text that ends with a line break reaches the program ending with a line
    feed. *)
Lemma translate_newlines_complete (t : text) :
  t <> [] -> complete_lines t = true ->
  ends_with_LF (translate_newlines t) = true.
Proof.
  unfold complete_lines, ends_with_LF.
  functional induction (translate_newlines t); intros Hne H.
  - congruence.
  - reflexivity.
  - destruct t'' as [|d t'']; [reflexivity|].
    rewrite last_cons by (apply translate_newlines_nonempty; discriminate).
    apply IHt0; [discriminate|]. exact H.
  - rewrite last_cons by (apply translate_newlines_nonempty; discriminate).
    apply IHt0; [discriminate|]. exact H.
  - destruct t' as [|d t'].
    + cbn in H |- *. unfold is_line_break in H. rewrite e0 in H.
      rewrite orb_false_r in H. exact H.
    + rewrite last_cons by (apply translate_newlines_nonempty; discriminate).
      apply IHt0; [discriminate|]. exact H.
Qed.

Lemma forallb_concat {A} (f : A -> bool) (ls : list (list A)) :
  Forall (fun l => forallb f l = true) ls -> forallb f (concat ls) = true.
Proof.
  induction 1 as [|l ls Hl _ IH]; [reflexivity|].
  cbn [concat]. rewrite forallb_app, Hl, IH. reflexivity.
Qed.

(** Reading back a batch of whole lines gives these lines. *)
Lemma readlines_batch (ts : list text) :
  Forall (fun t => no_line_break t = true) ts ->
  readlines (concat (map (fun t => t ++ [LF]) ts))
  = map (fun t => t ++ [LF]) ts.
Proof.
  intros H. unfold readlines. rewrite translate_newlines_id.
  - induction H as [|t ts Ht _ IH]; [reflexivity|].
    cbn [map concat]. rewrite <- app_assoc. cbn [app].
    rewrite split_lines_line by now apply no_line_break_no_LF.
    rewrite IH. reflexivity.
  - apply forallb_concat. apply Forall_map.
    eapply Forall_impl; [|exact H]. intros t Ht. cbn beta in *.
    rewrite forallb_app. apply andb_true_iff. split; [|reflexivity].
    now apply no_line_break_no_CR.
Qed.

(** Text made of complete lines and then some trailing characters without
    a line break: the trailing characters come back as a last line. *)
Lemma readlines_partial (t p : text) :
  complete_lines t = true -> no_line_break p = true -> p <> [] ->
  readlines (t ++ p) = readlines t ++ [p].
Proof.
  intros Ht Hp Hne. unfold readlines.
  rewrite translate_newlines_app by now apply no_line_break_starts.
  rewrite (translate_newlines_id p) by now apply no_line_break_no_CR.
  assert (Hsplit : split_lines [] p = [p]).
  { rewrite split_lines_partial by now apply no_line_break_no_LF.
    destruct p; [congruence|reflexivity]. }
  destruct t as [|c t].
  - cbn [translate_newlines app]. rewrite Hsplit. reflexivity.
  - pose proof (@translate_newlines_complete (c :: t)) as E.
    specialize (E ltac:(discriminate) Ht).
    pose proof (@translate_newlines_nonempty (c :: t) ltac:(discriminate))
      as Hn.
    rewrite (app_removelast_last 0 Hn) in *.
    unfold ends_with_LF in E. rewrite last_last in E.
    apply N.eqb_eq in E. rewrite E at 1 2. rewrite <- app_assoc. cbn [app].
    rewrite split_lines_app, Hsplit. reflexivity.
Qed.

Lemma readlines_complete (t : text) :
  complete_lines t = true ->
  Forall (fun l => ends_with_LF l = true) (readlines t).
Proof.
  intros Ht. unfold readlines. destruct t as [|c t]; [constructor|].
  apply split_lines_complete.
  - cbn [app]. apply translate_newlines_complete; [discriminate|exact Ht].
  - intros E. now apply translate_newlines_nonempty in E.
Qed.

(** *** [strip] *)

Lemma lstrip_app (t u : text) :
  lstrip t <> [] -> lstrip (t ++ u) = lstrip t ++ u.
Proof.
  induction t as [|c t IH]; cbn [lstrip app]; [congruence|].
  destruct (isspace c); [exact IH|reflexivity].
Qed.

Lemma lstrip_spaces (t u : text) :
  lstrip t = [] -> lstrip (t ++ u) = lstrip u.
Proof.
  induction t as [|c t IH]; cbn [lstrip app]; [reflexivity|].
  destruct (isspace c); [exact IH|discriminate].
Qed.

(** The line feed that ends a line does not survive [strip]. *)
Lemma strip_line (t : text) : strip (t ++ [LF]) = strip t.
Proof.
  unfold strip, rstrip.
  destruct (lstrip t) as [|c l] eqn:E.
  - rewrite lstrip_spaces by exact E. reflexivity.
  - rewrite lstrip_app by congruence. rewrite E.
    rewrite rev_unit. reflexivity.
Qed.

(** ** [json.loads] always answers

    The fuel that [json_loads] gives to [scan_once] is never used up: the
    decoder returns an object or raises [JSONDecodeError] or [ValueError],
    as the decoder of the runtime does short of its recursion limit. *)

Lemma skip_ws_length (s : text) : (length (skip_ws s) <= length s)%nat.
Proof.
  induction s as [|c s IH]; cbn [skip_ws]; [lia|].
  destruct (is_json_ws c); cbn [length]; lia.
Qed.

Lemma scanstring_length (acc s k r : text) :
  scanstring acc s = Ok (k, r) -> (length r < length s)%nat.
Proof.
  revert k r.
  functional induction (scanstring acc s); intros k r H;
    try discriminate;
    try (apply IHr in H; cbn [length] in *; lia).
  inversion H; subst. cbn [length]. lia.
Qed.

Lemma strip_prefix_length (p s r : text) :
  strip_prefix p s = Some r -> (length r + length p = length s)%nat.
Proof.
  revert s. induction p as [|x p IH]; intros s H.
  - inversion H; subst. cbn. lia.
  - destruct s as [|y s]; cbn [strip_prefix] in H; [discriminate|].
    destruct (x =? y); [|discriminate]. apply IH in H. cbn [length]. lia.
Qed.

Lemma scan_constant_length (s r : text) (v : pyobj) :
  scan_constant s = Some (v, r) -> (length r < length s)%nat.
Proof.
  unfold scan_constant. intros H.
  repeat match type of H with
         | match strip_prefix ?p s with _ => _ end = _ =>
           let E := fresh "E" in
           destruct (strip_prefix p s) eqn:E;
           [apply strip_prefix_length in E; inversion H; subst;
            vm_compute (length p) in E; lia|]
         end.
  discriminate.
Qed.

Lemma span_digits_length (s r : text) (ds : list N) :
  span_digits s = (ds, r) -> (length r <= length s)%nat.
Proof.
  revert ds r. induction s as [|c s IH]; intros ds r H; cbn [span_digits] in H.
  - inversion H. cbn. lia.
  - destruct (is_digit c).
    + destruct (span_digits s) as [ds' r'] eqn:E. inversion H; subst.
      specialize (IH _ _ eq_refl). cbn [length]. lia.
    + inversion H; subst. lia.
Qed.

Ltac span_facts :=
  repeat match goal with
         | H : span_digits ?s = (_, _) |- _ =>
           apply span_digits_length in H; cbn [length tl] in H
         end.

Lemma take_minus_length (s r : text) (neg : bool) :
  take_minus s = (neg, r) -> (length r <= length s)%nat.
Proof.
  unfold take_minus. intros H.
  repeat break_match_hyp; inversion H; subst; cbn [length]; lia.
Qed.

Lemma scan_int_part_length (s r : text) (ids : list N) :
  scan_int_part s = Some (ids, r) -> (length r < length s)%nat.
Proof.
  unfold scan_int_part. intros H.
  destruct s as [|c s]; [discriminate|].
  destruct (c =? ch "0"); [inversion H; subst; cbn [length]; lia|].
  destruct (is_digit c) eqn:D; [|discriminate].
  cbn [span_digits] in H. rewrite D in H.
  destruct (span_digits s) as [ds r'] eqn:E. inversion H; subst.
  apply span_digits_length in E. cbn [length]. lia.
Qed.

Lemma scan_frac_length (s r : text) (frac : option (list N)) :
  scan_frac s = (frac, r) -> (length r <= length s)%nat.
Proof.
  unfold scan_frac. intros H.
  destruct s as [|p [|d s]]; try (inversion H; subst; lia).
  destruct ((p =? ch ".") && is_digit d); [|inversion H; subst; lia].
  destruct (span_digits (tl (p :: d :: s))) as [fds r'] eqn:E.
  inversion H; subst. apply span_digits_length in E.
  cbn [tl length] in *. lia.
Qed.

Lemma scan_exp_length (s r : text) (exp : option (bool * list N)) :
  scan_exp s = (exp, r) -> (length r <= length s)%nat.
Proof.
  unfold scan_exp. intros H.
  destruct s as [|e s]; [inversion H; subst; lia|].
  destruct ((e =? ch "e") || (e =? ch "E")); [|inversion H; subst; lia].
  match type of H with
  | (let '(_, _) := ?x in _) = _ => destruct x as [eneg r'] eqn:S
  end.
  assert (L : (length r' <= length s)%nat).
  { repeat break_match_hyp; inversion S; subst; cbn [length]; lia. }
  destruct (span_digits r') as [[|d eds] r''] eqn:E;
    inversion H; subst; [lia|].
  apply span_digits_length in E. cbn [length]. lia.
Qed.

Lemma match_number_length (s r : text) (v : result pyobj) :
  match_number s = Some (v, r) -> (length r < length s)%nat.
Proof.
  unfold match_number. intros H.
  destruct (take_minus s) as [neg s0] eqn:E0.
  destruct (scan_int_part s0) as [[ids s1]|] eqn:E1; [|discriminate].
  destruct (scan_frac s1) as [frac s2] eqn:E2.
  destruct (scan_exp s2) as [exp s3] eqn:E3.
  inversion H; subst.
  apply take_minus_length in E0. apply scan_int_part_length in E1.
  apply scan_frac_length in E2. apply scan_exp_length in E3. lia.
Qed.

Lemma scanstring_raise (acc s : text) (x : exn) :
  scanstring acc s = Raise x -> x = JSONDecodeError.
Proof.
  functional induction (scanstring acc s); intros H;
    try discriminate; try (now apply IHr); now inversion H.
Qed.

Lemma match_number_raise (s r : text) (x : exn) :
  match_number s = Some (Raise x, r) -> x = ValueError.
Proof.
  unfold match_number, number_value. intros H.
  repeat break_match_hyp; congruence.
Qed.

(** What a scan leaves is shorter than what it was given. *)
Lemma scan_length (fuel : nat) :
  (forall s v r, scan_once fuel s = Ok (v, r) -> (length r < length s)%nat)
  /\ (forall acc s v r,
         parse_members fuel acc s = Ok (v, r) -> (length r < length s)%nat)
  /\ (forall acc s v r,
         parse_elements fuel acc s = Ok (v, r) -> (length r < length s)%nat).
Proof.
  induction fuel as [|f (IH1 & IH2 & IH3)];
    [repeat split; intros; discriminate|].
  repeat split.
  - intros s v r H. cbn [scan_once] in H.
    destruct s as [|c s1]; [discriminate|].
    destruct (c =? QUOTE).
    { destruct (scanstring [] s1) as [[k r']|] eqn:E; cbn [rbind] in H;
        [|discriminate].
      inversion H; subst. apply scanstring_length in E. cbn [length]. lia. }
    destruct (c =? ch "{").
    { pose proof (skip_ws_length s1) as L.
      destruct (skip_ws s1) as [|d s2]; [discriminate|].
      destruct (d =? ch "}");
        [inversion H; subst; cbn [length] in *; lia|].
      destruct (d =? QUOTE); [|discriminate].
      apply IH2 in H. cbn [length] in *. lia. }
    destruct (c =? ch "[").
    { pose proof (skip_ws_length s1) as L.
      destruct (skip_ws s1) as [|d s2]; [discriminate|].
      destruct (d =? ch "]");
        [inversion H; subst; cbn [length] in *; lia|].
      apply IH3 in H. cbn [length] in *. lia. }
    destruct (scan_constant (c :: s1)) as [[v' r']|] eqn:E.
    { inversion H; subst. now apply scan_constant_length in E. }
    destruct (match_number (c :: s1)) as [[[v'|x] r']|] eqn:E2;
      try discriminate.
    cbn [rbind] in H. inversion H; subst.
    now apply match_number_length in E2.
  - intros acc s v r H. cbn [parse_members] in H.
    destruct (scanstring [] s) as [[key r1]|] eqn:E; cbn [rbind] in H;
      [|discriminate].
    apply scanstring_length in E.
    pose proof (skip_ws_length r1) as L1.
    destruct (skip_ws r1) as [|c r2]; [discriminate|].
    destruct (c =? ch ":"); [|discriminate].
    pose proof (skip_ws_length r2) as L2.
    destruct (scan_once f (skip_ws r2)) as [[v1 r3]|] eqn:E1;
      cbn [rbind] in H; [|discriminate].
    apply IH1 in E1.
    pose proof (skip_ws_length r3) as L3.
    destruct (skip_ws r3) as [|d r4]; [discriminate|].
    destruct (d =? ch "}");
      [inversion H; subst; cbn [length] in *; lia|].
    destruct (d =? ch ","); [|discriminate].
    pose proof (skip_ws_length r4) as L4.
    destruct (skip_ws r4) as [|q r5]; [discriminate|].
    destruct (q =? QUOTE); [|discriminate].
    apply IH2 in H. cbn [length] in *. lia.
  - intros acc s v r H. cbn [parse_elements] in H.
    destruct (scan_once f s) as [[v1 r1]|] eqn:E1; cbn [rbind] in H;
      [|discriminate].
    apply IH1 in E1.
    pose proof (skip_ws_length r1) as L1.
    destruct (skip_ws r1) as [|d r2]; [discriminate|].
    destruct (d =? ch "]");
      [inversion H; subst; cbn [length] in *; lia|].
    destruct (d =? ch ","); [|discriminate].
    pose proof (skip_ws_length r2) as L2.
    apply IH3 in H. cbn [length] in *. lia.
Qed.

(** With two units of fuel for every character and one more, a scan raises
    nothing but [JSONDecodeError] and [ValueError]. *)
Lemma scan_raise (fuel : nat) :
  (forall s x, (2 * length s + 1 <= fuel)%nat ->
     scan_once fuel s = Raise x -> In x [JSONDecodeError; ValueError])
  /\ (forall acc s x, (2 * length s + 2 <= fuel)%nat ->
        parse_members fuel acc s = Raise x ->
        In x [JSONDecodeError; ValueError])
  /\ (forall acc s x, (2 * length s + 2 <= fuel)%nat ->
        parse_elements fuel acc s = Raise x ->
        In x [JSONDecodeError; ValueError]).
Proof.
  induction fuel as [|f (IH1 & IH2 & IH3)];
    [repeat split; intros; lia|].
  assert (J : forall x, Raise (A := pyobj * text) JSONDecodeError = Raise x ->
                        In x [JSONDecodeError; ValueError])
    by (intros x E; inversion E; cbn; auto).
  repeat split.
  - intros s x F H. cbn [scan_once] in H.
    destruct s as [|c s1]; [now apply J|]. cbn [length] in F.
    destruct (c =? QUOTE).
    { destruct (scanstring [] s1) as [[k r']|y] eqn:E; cbn [rbind] in H;
        [discriminate|].
      apply scanstring_raise in E. inversion H; subst. cbn; auto. }
    destruct (c =? ch "{").
    { pose proof (skip_ws_length s1) as L.
      destruct (skip_ws s1) as [|d s2]; [now apply J|].
      destruct (d =? ch "}"); [discriminate|].
      destruct (d =? QUOTE); [|now apply J].
      apply IH2 in H; [exact H|]. cbn [length] in *. lia. }
    destruct (c =? ch "[").
    { pose proof (skip_ws_length s1) as L.
      destruct (skip_ws s1) as [|d s2]; [now apply J|].
      destruct (d =? ch "]"); [discriminate|].
      apply IH3 in H; [exact H|]. cbn [length] in *. lia. }
    destruct (scan_constant (c :: s1)) as [[v' r']|]; [discriminate|].
    destruct (match_number (c :: s1)) as [[[v'|y] r']|] eqn:E2;
      cbn [rbind] in H; [discriminate| |now apply J].
    apply match_number_raise in E2. inversion H; subst. cbn; auto.
  - intros acc s x F H. cbn [parse_members] in H.
    destruct (scanstring [] s) as [[key r1]|y] eqn:E; cbn [rbind] in H.
    2:{ apply scanstring_raise in E. inversion H; subst. cbn; auto. }
    apply scanstring_length in E.
    pose proof (skip_ws_length r1) as L1.
    destruct (skip_ws r1) as [|c r2]; [now apply J|].
    destruct (c =? ch ":"); [|now apply J].
    pose proof (skip_ws_length r2) as L2.
    destruct (scan_once f (skip_ws r2)) as [[v1 r3]|y] eqn:E1;
      cbn [rbind] in H.
    2:{ inversion H; subst. apply IH1 in E1; [exact E1|].
        cbn [length] in *. lia. }
    apply (proj1 (scan_length f)) in E1.
    pose proof (skip_ws_length r3) as L3.
    destruct (skip_ws r3) as [|d r4]; [now apply J|].
    destruct (d =? ch "}"); [discriminate|].
    destruct (d =? ch ","); [|now apply J].
    pose proof (skip_ws_length r4) as L4.
    destruct (skip_ws r4) as [|q r5]; [now apply J|].
    destruct (q =? QUOTE); [|now apply J].
    apply IH2 in H; [exact H|]. cbn [length] in *. lia.
  - intros acc s x F H. cbn [parse_elements] in H.
    destruct (scan_once f s) as [[v1 r1]|y] eqn:E1; cbn [rbind] in H.
    2:{ inversion H; subst. apply IH1 in E1; [exact E1|]. lia. }
    apply (proj1 (scan_length f)) in E1.
    pose proof (skip_ws_length r1) as L1.
    destruct (skip_ws r1) as [|d r2]; [now apply J|].
    destruct (d =? ch "]"); [discriminate|].
    destruct (d =? ch ","); [|now apply J].
    pose proof (skip_ws_length r2) as L2.
    apply IH3 in H; [exact H|]. cbn [length] in *. lia.
Qed.

(** [json.loads] returns an object or raises [JSONDecodeError] or
    [ValueError]; it does not run out of fuel. *)
Lemma json_loads_raise (s : text) (x : exn) :
  json_loads s = Raise x -> In x [JSONDecodeError; ValueError].
Proof.
  unfold json_loads. intros H.
  destruct s as [|c s']; [inversion H; cbn; auto|].
  destruct (c =? BOM); [inversion H; cbn; auto|].
  set (s := c :: s') in *.
  destruct (scan_once (2 * length s + 1) (skip_ws s)) as [[obj rest]|y] eqn:E;
    cbn [rbind] in H.
  - destruct (skip_ws rest); [discriminate|]. inversion H; cbn; auto.
  - inversion H; subst.
    apply (proj1 (scan_raise (2 * length s + 1))) in E; [exact E|].
    pose proof (skip_ws_length s). lia.
Qed.

(** ** The engine, line by line *)

Lemma process_line_blank (line : text) (st : state) :
  strip line = [] -> process_line line st = (Ok tt, st).
Proof. intros H. unfold process_line. rewrite H. reflexivity. Qed.

Lemma process_line_row (line : text) (row e : pyobj) (st : state) :
  strip line <> [] ->
  json_loads (strip line) = Ok row -> _transform_row row = Ok e ->
  process_line line st = (Ok tt, emit_row e st).
Proof.
  intros Hne Hrow He. unfold process_line.
  destruct (strip line) as [|c l] eqn:E; [congruence|].
  unfold try_except_JSONDecodeError, bind, lift. rewrite Hrow, He.
  reflexivity.
Qed.

Lemma process_line_malformed (line : text) (st : state) :
  strip line <> [] ->
  json_loads (strip line) = Raise JSONDecodeError ->
  process_line line st = (Ok tt, add_event PrintSkipped st).
Proof.
  intros Hne Hrow. unfold process_line.
  destruct (strip line) as [|c l] eqn:E; [congruence|].
  unfold try_except_JSONDecodeError, bind, lift. rewrite Hrow.
  reflexivity.
Qed.

Lemma process_line_raise (line : text) (x : exn) (st : state) :
  strip line <> [] ->
  (row <- json_loads (strip line) ;; _transform_row row) = Raise x ->
  x <> JSONDecodeError ->
  process_line line st = (Raise x, st).
Proof.
  intros Hne Hx Hj. unfold process_line.
  destruct (strip line) as [|c l] eqn:E; [congruence|].
  unfold try_except_JSONDecodeError, bind, lift.
  destruct (json_loads (c :: l)) as [row|y]; cbn [rbind] in Hx.
  - rewrite Hx. destruct x; congruence.
  - inversion Hx; subst. destruct x; congruence.
Qed.

(** *** Which exceptions the coercions raise *)

Lemma int_of_str_raise (s : text) (x : exn) :
  int_of_str s = Raise x -> x = ValueError.
Proof.
  unfold int_of_str. intros H.
  repeat break_match_hyp; congruence.
Qed.

Lemma float_of_str_raise (s : text) (x : exn) :
  float_of_str s = Raise x -> x = ValueError.
Proof.
  unfold float_of_str. intros H.
  repeat break_match_hyp; congruence.
Qed.

Lemma py_int_raise (v : pyobj) (x : exn) :
  py_int v = Raise x -> In x [ValueError; TypeError; OverflowError].
Proof.
  destruct v as [|b|z|f|s|l|d]; cbn [py_int]; intros H; try discriminate.
  - inversion H. cbn; auto.
  - destruct f; cbn in H; inversion H; cbn; auto.
  - apply int_of_str_raise in H. subst. cbn; auto.
  - inversion H. cbn; auto.
  - inversion H. cbn; auto.
Qed.

Lemma py_float_raise (v : pyobj) (x : exn) :
  py_float v = Raise x -> In x [ValueError; TypeError; OverflowError].
Proof.
  destruct v as [|b|z|f|s|l|d]; cbn [py_float]; intros H; try discriminate.
  - inversion H. cbn; auto.
  - destruct (is_finite (float_of_Z z)); inversion H. cbn; auto.
  - apply float_of_str_raise in H. subst. cbn; auto.
  - inversion H. cbn; auto.
  - inversion H. cbn; auto.
Qed.

Lemma transform_row_dict_raise (d : list (text * pyobj)) (x : exn) :
  _transform_row (PyDict d) = Raise x ->
  In x [ValueError; TypeError; OverflowError].
Proof.
  unfold _transform_row. cbn [dict_get rbind]. intros H.
  repeat match type of H with
         | rbind ?r _ = _ =>
           let E := fresh "E" in
           destruct r eqn:E; cbn [rbind] in H;
           [| inversion H; subst;
              first [ now apply py_int_raise in E
                    | now apply py_float_raise in E ] ]
         end.
  discriminate.
Qed.

Lemma transform_row_raise (row : pyobj) (x : exn) :
  _transform_row row = Raise x -> x <> JSONDecodeError.
Proof.
  destruct row; try (cbn; intros H; inversion H; discriminate).
  intros H. apply transform_row_dict_raise in H. cbn in H.
  intuition congruence.
Qed.

(** What one line can do to the state: nothing, one record, one skip
    message, or an exception that escapes. *)
Lemma process_line_cases (line : text) (st : state) :
  process_line line st = (Ok tt, st)
  \/ (exists row e, json_loads (strip line) = Ok row
                    /\ _transform_row row = Ok e
                    /\ process_line line st = (Ok tt, emit_row e st))
  \/ process_line line st = (Ok tt, add_event PrintSkipped st)
  \/ (exists x, x <> JSONDecodeError /\ process_line line st = (Raise x, st)).
Proof.
  destruct (strip line) as [|c l] eqn:E.
  - left. now apply process_line_blank.
  - assert (Hne : strip line <> []) by congruence. rewrite <- E in *.
    destruct (json_loads (strip line)) as [row|x] eqn:Hrow.
    + destruct (_transform_row row) as [e|x] eqn:He.
      * right; left. exists row, e. repeat split; auto.
        now apply process_line_row with (row := row).
      * right; right; right. exists x. split.
        -- now apply transform_row_raise in He.
        -- apply process_line_raise; auto.
           ++ rewrite Hrow. exact He.
           ++ now apply transform_row_raise in He.
    + destruct (exn_eqb x JSONDecodeError) eqn:Ex.
      * right; right; left. destruct x; try discriminate.
        now apply process_line_malformed.
      * right; right; right. exists x.
        assert (x <> JSONDecodeError) by (intros ->; discriminate).
        split; auto. apply process_line_raise; auto.
        rewrite Hrow. reflexivity.
Qed.

(** *** Batches of readings *)

Lemma emit_rows_offset (es : list pyobj) (st : state) :
  _file_offset (emit_rows es st) = _file_offset st.
Proof.
  revert st. induction es as [|e es IH]; intros st; [reflexivity|].
  cbn [emit_rows fold_left]. fold (emit_rows es (emit_row e st)).
  rewrite IH. reflexivity.
Qed.

Lemma emit_rows_interval (es : list pyobj) (st : state) :
  poll_interval (emit_rows es st) = poll_interval st.
Proof.
  revert st. induction es as [|e es IH]; intros st; [reflexivity|].
  cbn [emit_rows fold_left]. fold (emit_rows es (emit_row e st)).
  rewrite IH. reflexivity.
Qed.

Lemma emit_rows_count (es : list pyobj) (st : state) :
  row_count (emit_rows es st) = (row_count st + length es)%nat.
Proof.
  revert st. induction es as [|e es IH]; intros st.
  - cbn. lia.
  - cbn [emit_rows fold_left]. fold (emit_rows es (emit_row e st)).
    rewrite IH. cbn. lia.
Qed.

Lemma emit_rows_output (es : list pyobj) (st : state) :
  content (output_file (emit_rows es st))
  = content (output_file st) ++ flat_map serialize es.
Proof.
  revert st. induction es as [|e es IH]; intros st.
  - cbn. now rewrite app_nil_r.
  - cbn [emit_rows fold_left]. fold (emit_rows es (emit_row e st)).
    rewrite IH. cbn. now rewrite <- app_assoc.
Qed.

Lemma emit_rows_app (es fs : list pyobj) (st : state) :
  emit_rows (es ++ fs) st = emit_rows fs (emit_rows es st).
Proof. unfold emit_rows. apply fold_left_app. Qed.

Lemma for_each_rows (ts : list text) (es : list pyobj) (st : state) :
  Forall2 row_line ts es ->
  for_each process_line (map (fun t => t ++ [LF]) ts) st
  = (Ok tt, emit_rows es st).
Proof.
  intros H. revert st.
  induction H as [|t e ts es [Hne (row & Hrow & He)] _ IH]; intros st.
  - reflexivity.
  - cbn [map for_each]. unfold bind at 1.
    rewrite (@process_line_row (t ++ [LF]) row e).
    + rewrite IH. reflexivity.
    + now rewrite strip_line.
    + now rewrite strip_line.
    + exact He.
Qed.

Lemma utf8_decode_batch (b : list (list Byte.byte)) (ts : list text) :
  Forall2 (fun r t => utf8_decode r = Ok t) b ts ->
  utf8_decode (batch_bytes b) = Ok (concat (map (fun t => t ++ [LF]) ts)).
Proof.
  induction 1 as [|r t b ts Hr _ IH]; [reflexivity|].
  unfold batch_bytes in *. cbn [map concat].
  rewrite (@utf8_decode_app (r ++ newline) _ (t ++ [LF])).
  - rewrite IH. reflexivity.
  - rewrite (utf8_decode_app r newline t Hr). reflexivity.
Qed.

Lemma reading_batch (b : list (list Byte.byte)) (es : list pyobj) :
  Forall2 reading b es ->
  exists ts,
    Forall2 (fun r t => utf8_decode r = Ok t) b ts
    /\ Forall (fun t => no_line_break t = true) ts
    /\ Forall2 row_line ts es.
Proof.
  induction 1 as [|r e b es (t & row & Hd & Hl & Hne & Hrow & He) _ IH].
  - exists []. repeat constructor.
  - destruct IH as (ts & H1 & H2 & H3). exists (t :: ts).
    repeat split; constructor; auto. split; eauto.
Qed.

Lemma poll_appended (pre new : list Byte.byte) (t : text) :
  utf8_decode new = Ok t ->
  poll (pre ++ new) (length pre)
  = Ok (readlines t, length (pre ++ new)).
Proof.
  intros H. unfold poll.
  rewrite skipn_app, skipn_all, Nat.sub_diag. cbn [app skipn].
  rewrite H. cbn [rbind]. rewrite length_app.
  now rewrite Nat.max_r by lia.
Qed.

(** One iteration that finds a batch of readings appended to the file. *)
Lemma iteration_batch (pre : list Byte.byte) (b : list (list Byte.byte))
    (es : list pyobj) (st : state) :
  Forall2 reading b es -> _file_offset st = length pre ->
  iteration (Some (pre ++ batch_bytes b)) st
  = (Ok tt,
     add_event (Sleep (poll_interval st))
       (emit_rows es
          (with_file_offset (length (pre ++ batch_bytes b)) st))).
Proof.
  intros Hb Hoff. destruct (reading_batch _ _ Hb) as (ts & Hd & Hl & Hrows).
  unfold iteration, bind at 1, get, lift. unfold bind at 1.
  rewrite Hoff, (poll_appended pre _ _ (utf8_decode_batch _ _ Hd)).
  rewrite (readlines_batch _ Hl).
  unfold bind at 1, set_file_offset, modify.
  unfold bind at 1. rewrite (for_each_rows _ _ _ Hrows).
  reflexivity.
Qed.

(** ** The classifier *)

(** C4, as amended.  The overall status at the boundary values: 151 and 81
    are UNSAFE; 150, 101, 35.1 and 80 are CAUTION; 35 is SAFE.  Every
    comparison is strict: a value equal to a threshold stays in the tier
    below it (150, 40 and 80 are CAUTION, 100, 35 and 60 are SAFE), and the
    status is UNSAFE exactly when a value exceeds its upper threshold,
    CAUTION exactly when none does and one exceeds its lower threshold. *)
Theorem threshold_boundaries :
  let zero := float_of_Z 0 in
  compute_overall_status 150 zero 0 = str "CAUTION"
  /\ compute_overall_status 151 zero 0 = str "UNSAFE"
  /\ compute_overall_status 101 zero 0 = str "CAUTION"
  /\ compute_overall_status 0 (float_of_Z 35) 0 = str "SAFE"
  /\ compute_overall_status 0 (float_of_decimal false 351 (-1)) 0
     = str "CAUTION"
  /\ compute_overall_status 0 zero 80 = str "CAUTION"
  /\ compute_overall_status 0 zero 81 = str "UNSAFE"
  /\ compute_overall_status 100 zero 0 = str "SAFE"
  /\ compute_overall_status 0 (float_of_Z 40) 0 = str "CAUTION"
  /\ compute_overall_status 0 (float_of_decimal false 401 (-1)) 0
     = str "UNSAFE"
  /\ compute_overall_status 0 zero 60 = str "SAFE"
  /\ compute_overall_status 0 zero 61 = str "CAUTION"
  /\ (forall aqi temp humidity,
        compute_overall_status aqi temp humidity = str "UNSAFE"
        <-> (150 < aqi)%Z \/ float_gt temp 40 = true \/ (80 < humidity)%Z)
  /\ (forall aqi temp humidity,
        compute_overall_status aqi temp humidity = str "CAUTION"
        <-> ~ ((150 < aqi)%Z \/ float_gt temp 40 = true \/ (80 < humidity)%Z)
            /\ ((100 < aqi)%Z \/ float_gt temp 35 = true
                \/ (60 < humidity)%Z)).
Proof using.
  clear float_repr unicode_todecimal.
  repeat (split; [vm_compute; reflexivity|]).
  split; intros aqi temp humidity; unfold compute_overall_status;
    rewrite !Z.gtb_ltb;
    destruct (150 <? aqi)%Z eqn:A1; destruct (float_gt temp 40) eqn:T1;
    destruct (80 <? humidity)%Z eqn:H1;
    destruct (100 <? aqi)%Z eqn:A2; destruct (float_gt temp 35) eqn:T2;
    destruct (60 <? humidity)%Z eqn:H2;
    cbn [orb];
    repeat match goal with
           | H : (_ <? _)%Z = true |- _ => apply Z.ltb_lt in H
           | H : (_ <? _)%Z = false |- _ => apply Z.ltb_ge in H
           end;
    (split; [intros E; try (vm_compute in E; discriminate E)
            | intros E; try reflexivity]);
    try solve [intuition (try lia; try discriminate)].
Qed.

(** C5.  The overall status is the one the specification derives from the
    tiers of the three per-dimension labels: UNSAFE when a label is in the
    UNSAFE tier, else CAUTION when a label is in the CAUTION tier, else
    SAFE; for every reading, a NaN temperature included. *)
Theorem overall_status_consistent (aqi : Z) (temp : float) (humidity : Z) :
  compute_overall_status aqi temp humidity
  = overall_status_spec aqi temp humidity.
Proof.
  unfold compute_overall_status, overall_status_spec,
    detect_aqi_risk, detect_temp_risk, detect_humidity_risk.
  destruct (aqi >? 150)%Z; destruct (float_gt temp 40);
    destruct (humidity >? 80)%Z;
    destruct (aqi >? 100)%Z; destruct (float_gt temp 35);
    destruct (humidity >? 60)%Z; vm_compute; reflexivity.
Qed.

(** ** The poll loop *)

(** C8.  An iteration that finds no input file reads nothing: the cursor,
    the output file and the row count stay as they are, a waiting message
    is printed, the engine sleeps one second, nothing is raised, and the
    loop goes on with its next iteration. *)
Theorem absent_input_tolerated
    (st : state) (rest : list (option (list Byte.byte))) :
  let st' := add_event (Sleep (PyInt 1)) (add_event PrintWaiting st) in
  iteration None st = (Ok tt, st')
  /\ _file_offset st' = _file_offset st
  /\ output_file st' = output_file st
  /\ row_count st' = row_count st
  /\ trace st' = trace st ++ [PrintWaiting; Sleep (PyInt 1)]
  /\ run_loop (None :: rest) st = run_loop rest st'.
Proof.
  cbn zeta. repeat split.
  cbn [add_event trace]. now rewrite <- app_assoc.
Qed.

Lemma for_each_blank (lines : list text) (st : state) :
  Forall (fun l => strip l = []) lines ->
  for_each process_line lines st = (Ok tt, st).
Proof.
  induction 1 as [|l lines Hl _ IH]; [reflexivity|].
  cbn [for_each]. unfold bind. now rewrite (process_line_blank l st Hl).
Qed.

(** C10.  A line that is empty once stripped leaves the state as it is: no
    record is written, no message is printed, nothing is counted, and the
    loop goes on with the next line.  An iteration that finds only such
    lines appended moves the cursor to the end of the file and does nothing
    else before it sleeps. *)
Theorem blank_line_skipped
    (line : text) (lines : list text) (pre new : list Byte.byte) (t : text)
    (st : state) :
  strip line = [] ->
  utf8_decode new = Ok t -> Forall (fun l => strip l = []) (readlines t) ->
  _file_offset st = length pre ->
  process_line line st = (Ok tt, st)
  /\ for_each process_line (line :: lines) st = for_each process_line lines st
  /\ iteration (Some (pre ++ new)) st
     = (Ok tt, add_event (Sleep (poll_interval st))
                 (with_file_offset (length (pre ++ new)) st)).
Proof.
  intros Hline Hnew Hblank Hoff. repeat split.
  - now apply process_line_blank.
  - cbn [for_each]. unfold bind. now rewrite (process_line_blank line st Hline).
  - unfold iteration, bind at 1, get, lift. unfold bind at 1.
    rewrite Hoff, (poll_appended pre new t Hnew).
    unfold bind at 1, set_file_offset, modify. unfold bind at 1.
    rewrite (for_each_blank _ _ Hblank). reflexivity.
Qed.

(** *** What every step of a run preserves *)

Lemma extends_refl (st : state) : extends st st.
Proof.
  split; [lia|]. exists []. cbn. now rewrite app_nil_r.
Qed.

Lemma extends_trans (a b c : state) : extends a b -> extends b c -> extends a c.
Proof.
  intros [H1 (es & E1 & F1)] [H2 (fs & E2 & F2)]. split; [lia|].
  exists (es ++ fs). split.
  - now rewrite E2, E1, flat_map_app, app_assoc.
  - apply Forall_app. now split.
Qed.

Lemma extends_add_event (e : event) (st : state) : extends st (add_event e st).
Proof.
  split; [cbn; lia|]. exists []. cbn. now rewrite app_nil_r.
Qed.

Lemma extends_emit_row (row e : pyobj) (st : state) :
  _transform_row row = Ok e -> extends st (emit_row e st).
Proof.
  intros H. split; [cbn; lia|]. exists [e]. split.
  - cbn. now rewrite app_nil_r.
  - constructor; [now exists row|constructor].
Qed.

Lemma process_line_extends (line : text) (st : state) :
  extends st (snd (process_line line st)).
Proof.
  destruct (process_line_cases line st)
    as [E|[(row & e & _ & He & E)|[E|(x & _ & E)]]]; rewrite E; cbn [snd].
  - apply extends_refl.
  - now apply extends_emit_row with (row := row).
  - apply extends_add_event.
  - apply extends_refl.
Qed.

Lemma bind_extends {A B} (m : M A) (k : A -> M B) (st : state) :
  extends st (snd (m st)) ->
  (forall a s, extends s (snd (k a s))) ->
  extends st (snd (bind m k st)).
Proof.
  intros Hm Hk. unfold bind. destruct (m st) as [[a|x] s]; cbn [snd] in *.
  - eapply extends_trans; [exact Hm|apply Hk].
  - exact Hm.
Qed.

Lemma for_each_extends (lines : list text) (st : state) :
  extends st (snd (for_each process_line lines st)).
Proof.
  revert st. induction lines as [|l lines IH]; intros st.
  - apply extends_refl.
  - cbn [for_each]. apply bind_extends; [apply process_line_extends|].
    intros _ s. apply IH.
Qed.

Lemma poll_offset (input : list Byte.byte) (offset : nat)
    (lines : list text) (offset' : nat) :
  poll input offset = Ok (lines, offset') -> (offset <= offset')%nat.
Proof.
  unfold poll. destruct (utf8_decode (skipn offset input)); cbn [rbind];
    [|discriminate].
  intros H. inversion H. lia.
Qed.

Lemma iteration_extends (input : option (list Byte.byte)) (st : state) :
  extends st (snd (iteration input st)).
Proof.
  destruct input as [bytes|]; cbn [iteration].
  - unfold bind at 1, get. unfold bind at 1, lift.
    destruct (poll bytes (_file_offset st)) as [[lines off]|x] eqn:Hp.
    + apply poll_offset in Hp.
      unfold bind at 1, set_file_offset, modify.
      apply extends_trans with (b := with_file_offset off st).
      * split; [exact Hp|]. exists []. cbn. now rewrite app_nil_r.
      * apply bind_extends; [apply for_each_extends|].
        intros _ s. apply extends_add_event.
    + apply extends_refl.
  - unfold bind, print, sleep, modify. cbn [snd].
    eapply extends_trans; apply extends_add_event.
Qed.

Lemma run_loop_extends (inputs : list (option (list Byte.byte)))
    (st : state) :
  extends st (snd (run_loop inputs st)).
Proof.
  revert st. induction inputs as [|input rest IH]; intros st.
  - apply extends_refl.
  - cbn [run_loop]. apply bind_extends; [apply iteration_extends|].
    intros _ s. apply IH.
Qed.

(** C9.  Start-up leaves no output file behind, whatever was there; from
    any state on, however many iterations the loop makes and however it
    ends, the output file is what it was before followed by whole lines,
    each the serialization of one record made by the transformer; started
    afresh, the file holds such lines only. *)
Theorem output_fresh_then_append_only
    (interval : pyobj) (existing : option text)
    (inputs : list (option (list Byte.byte))) (st : state) :
  output_file (__init__ interval existing) = None
  /\ (exists es,
        content (output_file (snd (run_loop inputs st)))
        = content (output_file st) ++ flat_map serialize es
        /\ Forall (fun e => exists row, _transform_row row = Ok e) es)
  /\ (exists es,
        content (output_file
                   (snd (run inputs (__init__ interval existing))))
        = flat_map serialize es
        /\ Forall (fun e => exists row, _transform_row row = Ok e) es).
Proof.
  split; [destruct existing; reflexivity|]. split.
  - apply run_loop_extends.
  - unfold run, bind, set_row_count, modify.
    destruct (run_loop_extends inputs
                (with_row_count 0 (__init__ interval existing)))
      as [_ (es & E & F)].
    exists es. split; [|exact F]. rewrite E.
    destruct existing; reflexivity.
Qed.

Lemma poll_ignores_consumed (b1 b2 : list Byte.byte) (offset : nat) :
  skipn offset b1 = skipn offset b2 -> poll b1 offset = poll b2 offset.
Proof.
  intros H. unfold poll. rewrite H.
  assert (L : (length b1 - offset = length b2 - offset)%nat)
    by now rewrite <- !length_skipn, H.
  replace (Nat.max offset (length b1)) with (Nat.max offset (length b2))
    by lia.
  reflexivity.
Qed.

Lemma for_each_offset (lines : list text) (st : state) :
  _file_offset (snd (for_each process_line lines st)) = _file_offset st.
Proof.
  revert st. induction lines as [|l lines IH]; intros st; [reflexivity|].
  cbn [for_each]. unfold bind.
  destruct (process_line_cases l st)
    as [E|[(row & e & _ & _ & E)|[E|(x & _ & E)]]]; rewrite E;
    try apply IH; try reflexivity.
  - rewrite IH. reflexivity.
  - rewrite IH. reflexivity.
Qed.

(** C7.  Over any number of iterations, and however they end, the cursor
    does not move back; an iteration that reads the file leaves the cursor
    at the end of the file, or where it was if the file ends before it; and
    an iteration does not look at the bytes before its cursor: two files
    that agree from the cursor on give the same iteration. *)
Theorem cursor_monotone
    (inputs : list (option (list Byte.byte))) (st : state)
    (b1 b2 : list Byte.byte) :
  (_file_offset st <= _file_offset (snd (run_loop inputs st)))%nat
  /\ (is_raise (utf8_decode (skipn (_file_offset st) b1)) = false ->
      _file_offset (snd (iteration (Some b1) st))
      = Nat.max (_file_offset st) (length b1))
  /\ (skipn (_file_offset st) b1 = skipn (_file_offset st) b2 ->
      iteration (Some b1) st = iteration (Some b2) st).
Proof.
  repeat split.
  - apply run_loop_extends.
  - intros H. cbn [iteration]. unfold bind at 1, get.
    unfold bind at 1, lift, poll.
    destruct (utf8_decode (skipn (_file_offset st) b1)) as [t|];
      [|discriminate].
    cbn [rbind]. unfold bind at 1, set_file_offset, modify. unfold bind.
    pose proof (for_each_offset (readlines t)
                  (with_file_offset
                     (Nat.max (_file_offset st) (length b1)) st)) as O.
    destruct (for_each process_line (readlines t) _) as [[[]|x] st1];
      cbn [snd] in *; exact O.
  - intros H. cbn [iteration]. unfold bind at 1 3, get.
    unfold bind at 1 3, lift.
    now rewrite (poll_ignores_consumed b1 b2 _ H).
Qed.

(** *** Batches over several polls *)

Lemma run_loop_waiting (k : nat) (rest : list (option (list Byte.byte)))
    (st : state) :
  exists st0,
    run_loop (repeat None k ++ rest) st = run_loop rest st0
    /\ _file_offset st0 = _file_offset st
    /\ output_file st0 = output_file st
    /\ row_count st0 = row_count st.
Proof.
  revert st. induction k as [|k IH]; intros st.
  - exists st. repeat split.
  - destruct (IH (add_event (Sleep (PyInt 1)) (add_event PrintWaiting st)))
      as (st0 & E & H1 & H2 & H3).
    exists st0. repeat split; auto.
Qed.

Lemma run_loop_snapshots (batches : list (list (list Byte.byte)))
    (ess : list (list pyobj)) (written : list Byte.byte) (st : state) :
  Forall2 (Forall2 reading) batches ess ->
  _file_offset st = length written ->
  exists st',
    run_loop (snapshots written batches) st = (Ok tt, st')
    /\ content (output_file st')
       = content (output_file st) ++ flat_map serialize (concat ess)
    /\ row_count st' = (row_count st + length (concat ess))%nat.
Proof.
  intros H. revert written st.
  induction H as [|b es batches ess Hb _ IH]; intros written st Hoff.
  - exists st. cbn. rewrite app_nil_r. repeat split. lia.
  - cbn [snapshots run_loop]. unfold bind at 1.
    rewrite (iteration_batch written b es st Hb Hoff).
    set (st1 := add_event _ _).
    destruct (IH (written ++ batch_bytes b) st1) as (st' & E & Hout & Hcount).
    { unfold st1. cbn [add_event _file_offset].
      now rewrite emit_rows_offset. }
    exists st'. split; [exact E|]. split.
    + rewrite Hout. unfold st1. cbn [add_event output_file].
      rewrite emit_rows_output. cbn [with_file_offset output_file concat].
      now rewrite flat_map_app, app_assoc.
    + rewrite Hcount. unfold st1. cbn [add_event row_count].
      rewrite emit_rows_count. cbn [with_file_offset row_count concat].
      rewrite length_app. lia.
Qed.

(** *** Polls at any moment *)

Lemma process_line_outcome (line : text) (st : state) :
  let r := process_line line st in
  fst r = match outcome_of line with
          | Escapes x => Raise x
          | _ => Ok tt
          end
  /\ content (output_file (snd r))
     = content (output_file st)
       ++ match outcome_of line with
          | Record e => serialize e
          | _ => []
          end
  /\ row_count (snd r)
     = match outcome_of line with
       | Record _ => S (row_count st)
       | _ => row_count st
       end
  /\ _file_offset (snd r) = _file_offset st
  /\ poll_interval (snd r) = poll_interval st.
Proof.
  cbn zeta. unfold outcome_of.
  destruct (strip line) as [|c l] eqn:E.
  - rewrite process_line_blank by exact E. cbn. rewrite app_nil_r. auto.
  - assert (Hne : strip line <> []) by congruence. rewrite <- E.
    destruct (json_loads (strip line)) as [row|x] eqn:Hrow.
    + destruct (_transform_row row) as [e|x] eqn:He.
      * rewrite (process_line_row line row e st Hne Hrow He). cbn. auto.
      * rewrite (process_line_raise line x st Hne).
        -- cbn. rewrite app_nil_r. auto.
        -- rewrite Hrow. exact He.
        -- now apply transform_row_raise in He.
    + assert (Hx : x = JSONDecodeError \/ x <> JSONDecodeError)
        by (destruct x; auto; right; discriminate).
      destruct Hx as [->|Hx].
      * rewrite (process_line_malformed line st Hne Hrow). cbn.
        rewrite app_nil_r. auto.
      * rewrite (process_line_raise line x st Hne);
          [|rewrite Hrow; reflexivity|exact Hx].
        destruct x; try congruence; cbn; rewrite app_nil_r; auto.
Qed.

Lemma for_each_records (lines : list text) (st : state) :
  let r := for_each process_line lines st in
  fst r = escape_result (first_escape lines)
  /\ content (output_file (snd r))
     = content (output_file st) ++ flat_map serialize (records_of lines)
  /\ row_count (snd r) = (row_count st + length (records_of lines))%nat
  /\ _file_offset (snd r) = _file_offset st
  /\ poll_interval (snd r) = poll_interval st.
Proof.
  cbn zeta. revert st. induction lines as [|l lines IH]; intros st.
  - cbn. rewrite app_nil_r. repeat split. lia.
  - cbn [for_each records_of first_escape]. unfold bind.
    destruct (process_line_outcome l st) as (H1 & H2 & H3 & H4 & H5).
    destruct (process_line l st) as [[[]|x] st1]; cbn [fst snd] in *.
    + destruct (IH st1) as (I1 & I2 & I3 & I4 & I5).
      destruct (outcome_of l); try discriminate.
      * rewrite I1, I2, I3, I4, I5, H2, H3, H4, H5, app_nil_r. auto.
      * rewrite I1, I2, I3, I4, I5, H2, H3, H4, H5. cbn [flat_map length].
        rewrite <- app_assoc. repeat split. lia.
    + destruct (outcome_of l); try discriminate.
      inversion H1; subst. cbn. rewrite H2, H3, H4, H5. repeat split. lia.
Qed.

Lemma first_escape_app (a b : list text) :
  first_escape (a ++ b)
  = match first_escape a with
    | Some x => Some x
    | None => first_escape b
    end.
Proof.
  induction a as [|l a IH]; [reflexivity|].
  cbn [app first_escape]. destruct (outcome_of l); auto.
Qed.

Lemma records_of_app (a b : list text) :
  records_of (a ++ b)
  = records_of a ++ match first_escape a with
                    | Some _ => []
                    | None => records_of b
                    end.
Proof.
  induction a as [|l a IH]; [reflexivity|].
  cbn [app first_escape records_of].
  destruct (outcome_of l); cbn [app]; congruence.
Qed.

Lemma iteration_appended (pre c : list Byte.byte) (t : text) (st : state) :
  utf8_decode c = Ok t -> _file_offset st = length pre ->
  iteration (Some (pre ++ c)) st
  = (for_each process_line (readlines t) ;;; sleep (poll_interval st))
      (with_file_offset (length (pre ++ c)) st).
Proof.
  intros Hc Hoff.
  unfold iteration, bind at 1, get, lift. unfold bind at 1.
  rewrite Hoff, (poll_appended pre c t Hc).
  unfold bind at 1, set_file_offset, modify. reflexivity.
Qed.

Lemma iteration_chunk (pre c : list Byte.byte) (t : text) (st : state) :
  utf8_decode c = Ok t -> _file_offset st = length pre ->
  let r := iteration (Some (pre ++ c)) st in
  fst r = escape_result (first_escape (readlines t))
  /\ content (output_file (snd r))
     = content (output_file st)
       ++ flat_map serialize (records_of (readlines t))
  /\ row_count (snd r)
     = (row_count st + length (records_of (readlines t)))%nat
  /\ _file_offset (snd r) = length (pre ++ c).
Proof.
  intros Hc Hoff. cbn zeta.
  rewrite (iteration_appended pre c t st Hc Hoff). unfold bind.
  destruct (for_each_records (readlines t)
              (with_file_offset (length (pre ++ c)) st))
    as (H1 & H2 & H3 & H4 & H5).
  destruct (for_each process_line (readlines t) _) as [[[]|x] st1];
    cbn [fst snd] in *; rewrite <- H1; cbn; rewrite H2, H3, H4;
    repeat split.
Qed.

Lemma run_loop_growing (chunks : list (list Byte.byte))
    (written : list Byte.byte) (st : state) :
  Forall (fun c => is_raise (utf8_decode c) = false) chunks ->
  _file_offset st = length written ->
  let r := run_loop (growing written chunks) st in
  let lines := flat_map chunk_lines chunks in
  fst r = escape_result (first_escape lines)
  /\ content (output_file (snd r))
     = content (output_file st) ++ flat_map serialize (records_of lines)
  /\ row_count (snd r) = (row_count st + length (records_of lines))%nat.
Proof.
  intros H. revert written st. cbn zeta.
  induction H as [|c chunks Hc _ IH]; intros written st Hoff.
  - cbn. rewrite app_nil_r. repeat split. lia.
  - cbn [growing run_loop flat_map]. unfold bind.
    unfold chunk_lines at 1 3 5.
    destruct (utf8_decode c) as [t|] eqn:Ec; [|discriminate].
    destruct (iteration_chunk written c t st Ec Hoff) as (H1 & H2 & H3 & H4).
    rewrite first_escape_app, records_of_app.
    destruct (iteration (Some (written ++ c)) st) as [[[]|x] st1];
      cbn [fst snd] in *.
    + destruct (first_escape (readlines t)); [discriminate|].
      destruct (IH (written ++ c) st1 H4) as (I1 & I2 & I3).
      rewrite I1, I2, I3, H2, H3, flat_map_app, length_app, <- app_assoc.
      repeat split. lia.
    + destruct (first_escape (readlines t)); [|discriminate].
      inversion H1; subst. rewrite H2, H3, app_nil_r. repeat split.
Qed.

(** C6.  Readings appended to the input log batch by batch, each batch
    found by one poll (a batch may be empty, and any number of polls may
    find no file before the first one): the loop does not stop, and the
    output file grows by the serialized records of all the readings, in the
    order in which the readings were appended, one record each; the row
    count grows by their number.  And whatever the moments of the polls
    (the file grows chunk by chunk, the chunks ending anywhere): the output
    file grows by the records of the lines that the polls read, in the
    order of the file, up to the first line whose exception escapes the
    loop; nothing is held back from one poll to the next. *)
Theorem ordering_preserved
    (k : nat) (batches : list (list (list Byte.byte)))
    (ess : list (list pyobj)) (chunks : list (list Byte.byte))
    (st : state) :
  _file_offset st = 0%nat ->
  (Forall2 (Forall2 reading) batches ess ->
   let result := run_loop (repeat None k ++ snapshots [] batches) st in
   fst result = Ok tt
   /\ content (output_file (snd result))
      = content (output_file st) ++ flat_map serialize (concat ess)
   /\ row_count (snd result) = (row_count st + length (concat ess))%nat)
  /\ (Forall (fun c => is_raise (utf8_decode c) = false) chunks ->
      let result := run_loop (repeat None k ++ growing [] chunks) st in
      let lines := flat_map chunk_lines chunks in
      fst result = escape_result (first_escape lines)
      /\ content (output_file (snd result))
         = content (output_file st)
           ++ flat_map serialize (records_of lines)
      /\ row_count (snd result)
         = (row_count st + length (records_of lines))%nat).
Proof.
  intros Hoff. split.
  - intros H. cbn zeta.
    destruct (run_loop_waiting k (snapshots [] batches) st)
      as (st0 & E & H1 & H2 & H3).
    rewrite E.
    destruct (run_loop_snapshots batches ess [] st0 H)
      as (st' & E' & Ho & Hc).
    { now rewrite H1. }
    rewrite E'. cbn [fst snd]. rewrite Ho, Hc, H2, H3. repeat split.
  - intros H. cbn zeta.
    destruct (run_loop_waiting k (growing [] chunks) st)
      as (st0 & E & H1 & H2 & H3).
    rewrite E.
    destruct (run_loop_growing chunks [] st0 H) as (I1 & I2 & I3).
    { now rewrite H1. }
    rewrite I1, I2, I3, H2, H3. repeat split.
Qed.

(** *** Torn lines *)

Lemma no_LF_last (p : text) :
  p <> [] -> forallb (fun c => negb (c =? LF)) p = true ->
  ends_with_LF p = false.
Proof.
  intros Hne H. rewrite (app_removelast_last 0 Hne) in H.
  rewrite forallb_app in H. apply andb_true_iff in H as [_ H].
  cbn [forallb] in H. rewrite andb_true_r in H.
  now apply negb_true_iff in H.
Qed.

(** C1, as amended.  The file holds, from the cursor on, complete lines and
    then trailing bytes that no line break ends.  The poll returns the
    complete lines, each ending with a line feed, and after them the
    trailing bytes as one more line, which does not end with a line feed;
    the cursor moves to the end of the file, beyond the trailing bytes.  A
    poll made after the producer has written the rest of that line returns
    the rest alone, as a line of its own. *)
Theorem torn_line_returned_partial
    (pre complete partial tail : list Byte.byte) (t p q : text) :
  utf8_decode complete = Ok t -> complete_lines t = true ->
  utf8_decode partial = Ok p -> p <> [] -> no_line_break p = true ->
  utf8_decode tail = Ok (q ++ [LF]) -> no_line_break q = true ->
  let file := pre ++ complete ++ partial in
  poll file (length pre) = Ok (readlines t ++ [p], length file)
  /\ Forall (fun l => ends_with_LF l = true) (readlines t)
  /\ ends_with_LF p = false
  /\ poll (file ++ tail) (length file)
     = Ok ([q ++ [LF]], length (file ++ tail)).
Proof.
  intros Ht Hc Hp Hne Hnl Hq Hql file. repeat split.
  - unfold file. rewrite (poll_appended pre (complete ++ partial) (t ++ p)).
    + now rewrite readlines_partial.
    + rewrite (utf8_decode_app complete partial t Ht), Hp. reflexivity.
  - now apply readlines_complete.
  - apply no_LF_last; [exact Hne|]. now apply no_line_break_no_LF.
  - rewrite (poll_appended file tail (q ++ [LF]) Hq).
    pose proof (readlines_batch [q]) as R. cbn [map concat] in R.
    rewrite app_nil_r in R. rewrite R; [reflexivity|].
    constructor; [exact Hql|constructor].
Qed.

(** *** A malformed line between two readings *)

Lemma not_json_text : utf8_decode not_json = Ok (str "{not json").
Proof. vm_compute. reflexivity. Qed.

Lemma not_json_malformed :
  strip (str "{not json" ++ [LF]) <> []
  /\ json_loads (strip (str "{not json" ++ [LF])) = Raise JSONDecodeError.
Proof. split; vm_compute; [discriminate|reflexivity]. Qed.

Lemma reading_row_line (r : list Byte.byte) (e : pyobj) :
  reading r e ->
  exists t, utf8_decode r = Ok t /\ no_line_break t = true /\ row_line t e.
Proof.
  intros (t & row & Hd & Hl & Hne & Hrow & He).
  exists t. repeat split; auto. now exists row.
Qed.

(** C2, as amended.  The input log gains the three lines [v1], [{not json]
    and [v2], where [v1] and [v2] are readings.  The iteration that finds
    them writes the record of [v1] and then the record of [v2] and nothing
    else, counts two rows, prints one row message, one message that a
    malformed line was skipped and a second row message, sleeps, and does
    not raise: the loop goes on.  (The skipped line is reported by that
    message; no counter of malformed lines is kept.) *)
Theorem malformed_line_isolated
    (pre v1 v2 : list Byte.byte) (e1 e2 : pyobj) (st : state) :
  reading v1 e1 -> reading v2 e2 -> _file_offset st = length pre ->
  let log := pre ++ batch_bytes [v1; not_json; v2] in
  let result := iteration (Some log) st in
  let icon e := status_icon (item e (str "overall_status")) in
  fst result = Ok tt
  /\ content (output_file (snd result))
     = content (output_file st) ++ serialize e1 ++ serialize e2
  /\ row_count (snd result) = (row_count st + 2)%nat
  /\ trace (snd result)
     = trace st ++ [PrintRow (row_count st + 1) (icon e1) e1;
                    PrintSkipped;
                    PrintRow (row_count st + 2) (icon e2) e2;
                    Sleep (poll_interval st)]
  /\ _file_offset (snd result) = length log.
Proof.
  intros H1 H2 Hoff log result icon.
  destruct (reading_row_line v1 e1 H1)
    as (t1 & D1 & L1 & Hne1 & row1 & R1 & T1).
  destruct (reading_row_line v2 e2 H2)
    as (t2 & D2 & L2 & Hne2 & row2 & R2 & T2).
  destruct not_json_malformed as [Hne Hbad].
  assert (Hd : utf8_decode (batch_bytes [v1; not_json; v2])
               = Ok (concat (map (fun t => t ++ [LF])
                                 [t1; str "{not json"; t2]))).
  { apply utf8_decode_batch.
    repeat constructor; auto using not_json_text. }
  assert (E : result
              = (Ok tt,
                 add_event (Sleep (poll_interval st))
                   (emit_row e2
                      (add_event PrintSkipped
                         (emit_row e1 (with_file_offset (length log) st)))))).
  { unfold result, log, iteration, bind at 1, get, lift. unfold bind at 1.
    rewrite Hoff, (poll_appended pre _ _ Hd).
    rewrite readlines_batch by (repeat constructor; auto).
    unfold bind at 1, set_file_offset, modify. unfold bind at 1.
    cbn [map for_each]. unfold bind at 1.
    rewrite (process_line_row (t1 ++ [LF]) row1 e1)
      by (rewrite ?strip_line; auto).
    unfold bind at 1. rewrite process_line_malformed by auto.
    unfold bind at 1.
    rewrite (process_line_row (t2 ++ [LF]) row2 e2)
      by (rewrite ?strip_line; auto).
    reflexivity. }
  rewrite E. cbn [fst snd]. repeat split.
  - cbn. now rewrite <- !app_assoc.
  - cbn. lia.
  - cbn. rewrite <- !app_assoc. cbn [app].
    now replace (row_count st + 1)%nat with (S (row_count st)) by lia;
      replace (row_count st + 2)%nat with (S (S (row_count st))) by lia.
Qed.

(** ** The record transformer *)

Lemma int_field_ok_coerce (o : option pyobj) :
  int_field_ok o = true ->
  exists z, py_int (get_or_zero o) = Ok z /\ (o = None -> z = 0%Z).
Proof.
  destruct o as [[|b|z|f|s|l|d]|]; cbn; intros H; try discriminate.
  - eexists. split; [reflexivity|discriminate].
  - eexists. split; [reflexivity|discriminate].
  - destruct f; try discriminate; eexists; (split; [reflexivity|discriminate]).
  - exists 0%Z. split; reflexivity.
Qed.

Lemma float_field_ok_coerce (o : option pyobj) :
  float_field_ok o = true ->
  exists f, py_float (get_or_zero o) = Ok f
            /\ (o = None -> f = S754_zero false).
Proof.
  destruct o as [[|b|z|f|s|l|d]|]; cbn [float_field_ok get_or_zero py_float];
    intros H; try discriminate.
  - eexists. split; [reflexivity|discriminate].
  - rewrite H. eexists. split; [reflexivity|discriminate].
  - eexists. split; [reflexivity|discriminate].
  - eexists. split; reflexivity.
Qed.

Lemma int_field_bad_raise (o : option pyobj) :
  int_field_bad o = true -> is_raise (py_int (get_or_zero o)) = true.
Proof.
  destruct o as [[|b|z|f|s|l|d]|]; cbn; intros H; try discriminate; auto.
Qed.

Lemma float_field_bad_raise (o : option pyobj) :
  float_field_bad o = true -> is_raise (py_float (get_or_zero o)) = true.
Proof.
  destruct o as [[|b|z|f|s|l|d]|]; cbn [float_field_bad get_or_zero py_float];
    intros H; try discriminate; auto.
Qed.

(** C3, as amended.  For a raw reading (a [dict]): when each of [aqi] and
    [humidity_pct] is absent or an [int], a [bool] or a finite [float], and
    [temperature_c] is absent or a [float], a [bool] or an [int] within the
    range of binary64, the transformer returns a record, in which an absent
    field counts as zero; when one of the three fields is there and is
    [null], a list, an object or a string that does not spell a number, the
    transformer raises [ValueError], [TypeError] or [OverflowError]. *)
Theorem transform_row_contract (d : list (text * pyobj)) :
  let aqi := dict_lookup d (str "aqi") in
  let temp := dict_lookup d (str "temperature_c") in
  let humid := dict_lookup d (str "humidity_pct") in
  (int_field_ok aqi = true -> float_field_ok temp = true ->
   int_field_ok humid = true ->
   exists e,
     _transform_row (PyDict d) = Ok e
     /\ (aqi = None -> item e (str "aqi") = PyInt 0)
     /\ (temp = None ->
         item e (str "temperature_c") = PyFloat (S754_zero false))
     /\ (humid = None -> item e (str "humidity_pct") = PyInt 0))
  /\ (int_field_bad aqi = true \/ float_field_bad temp = true
      \/ int_field_bad humid = true ->
      exists x,
        _transform_row (PyDict d) = Raise x
        /\ In x [ValueError; TypeError; OverflowError]).
Proof.
  intros aqi temp humid. split.
  - intros Ha Ht Hh.
    destruct (int_field_ok_coerce aqi Ha) as (a & Ea & Za).
    destruct (float_field_ok_coerce temp Ht) as (t & Et & Zt).
    destruct (int_field_ok_coerce humid Hh) as (h & Eh & Zh).
    unfold _transform_row. cbn [dict_get rbind].
    fold aqi temp humid. fold (get_or_zero aqi) (get_or_zero temp)
      (get_or_zero humid).
    rewrite Ea. cbn [rbind]. rewrite Et. cbn [rbind]. rewrite Eh.
    cbn [rbind]. eexists. split; [reflexivity|].
    repeat split; intros E.
    + rewrite (Za E). reflexivity.
    + rewrite (Zt E). reflexivity.
    + rewrite (Zh E). reflexivity.
  - intros Hbad.
    destruct (_transform_row (PyDict d)) as [e|x] eqn:E.
    + exfalso. unfold _transform_row in E. cbn [dict_get rbind] in E.
      fold aqi temp humid in E. fold (get_or_zero aqi) (get_or_zero temp)
        (get_or_zero humid) in E.
      destruct (py_int (get_or_zero aqi)) eqn:Ea; [|discriminate].
      cbn [rbind] in E.
      destruct (py_float (get_or_zero temp)) eqn:Et; [|discriminate].
      cbn [rbind] in E.
      destruct (py_int (get_or_zero humid)) eqn:Eh; [|discriminate].
      destruct Hbad as [H|[H|H]].
      * apply int_field_bad_raise in H. rewrite Ea in H. discriminate.
      * apply float_field_bad_raise in H. rewrite Et in H. discriminate.
      * apply int_field_bad_raise in H. rewrite Eh in H. discriminate.
    + exists x. split; [reflexivity|].
      now apply transform_row_dict_raise in E.
Qed.

End PathwayPipeline.

(** * The properties on sample input

    The runtime is the one with [float_repr_shortest] and the digit table
    of Unicode 14.0. *)

Lemma sample_reading (r : list Byte.byte) :
  utf8_decode r = Ok (sample_text r) ->
  no_line_break (sample_text r) = true ->
  strip (sample_text r) <> [] ->
  json_loads (strip (sample_text r)) = Ok (sample_row r) ->
  _transform_row unicode14_todecimal (sample_row r)
  = Ok (enrich unicode14_todecimal r) ->
  reading unicode14_todecimal r (enrich unicode14_todecimal r).
Proof.
  intros. exists (sample_text r), (sample_row r). repeat split; assumption.
Qed.

Ltac sample_reading :=
  apply sample_reading; vm_compute; solve [reflexivity | discriminate].

Lemma valid1_reading :
  reading unicode14_todecimal valid1 (enrich unicode14_todecimal valid1).
Proof. sample_reading. Qed.

Lemma valid2_reading :
  reading unicode14_todecimal valid2 (enrich unicode14_todecimal valid2).
Proof. sample_reading. Qed.

Lemma valid3_reading :
  reading unicode14_todecimal valid3 (enrich unicode14_todecimal valid3).
Proof. sample_reading. Qed.

(** C1, counterexample.  The input file holds one complete line and the
    first 29 bytes of a second one.  The poll does not return the complete
    line alone with the cursor at its end: it returns the torn bytes as a
    second line and puts the cursor at the end of the file.  After the
    producer has written the rest, the next poll does not return the second
    line whole; and the engine, over these two polls, writes the record of
    the first line only: the second reading is lost. *)
Lemma torn_line_counterexample :
  let line1 := sample_text valid1 ++ [LF] in
  let line2 := sample_text valid2 ++ [LF] in
  let file := (valid1 ++ newline) ++ torn_head in
  let file' := file ++ torn_tail in
  file' = batch_bytes [valid1; valid2]
  /\ poll file 0 <> Ok ([line1], length (valid1 ++ newline))
  /\ poll file 0 = Ok ([line1; sample_text torn_head], length file)
  /\ poll file' (length file) <> Ok ([line2], length file')
  /\ content
       (output_file
          (snd (run_pipeline float_repr_shortest unicode14_todecimal None
                  [Some file; Some file'])))
     = serialize float_repr_shortest (enrich unicode14_todecimal valid1).
Proof.
  cbn zeta. repeat split; try (vm_compute; reflexivity);
    vm_compute; discriminate.
Qed.

(** C1, witness. *)
Lemma torn_line_returned_partial_witness :
  let file := [] ++ (valid1 ++ newline) ++ torn_head in
  poll file (length (@nil Byte.byte))
  = Ok (readlines (sample_text valid1 ++ [LF]) ++ [sample_text torn_head],
        length file)
  /\ Forall (fun l => ends_with_LF l = true)
            (readlines (sample_text valid1 ++ [LF]))
  /\ ends_with_LF (sample_text torn_head) = false
  /\ poll (file ++ torn_tail) (length file)
     = Ok ([sample_text torn_rest ++ [LF]], length (file ++ torn_tail)).
Proof.
  apply (torn_line_returned_partial [] (valid1 ++ newline) torn_head
           torn_tail (sample_text valid1 ++ [LF]) (sample_text torn_head)
           (sample_text torn_rest));
    vm_compute; solve [reflexivity | discriminate].
Defined.

(** C2, counterexample.  After the log [valid1, {not json, valid2] has
    been processed, the numbers the engine keeps are its row count, 2, and
    its cursor, 189: it has no counter that went to 1. *)
Lemma no_malformed_line_counter :
  let st := snd (run_pipeline float_repr_shortest unicode14_todecimal None
                   [Some (batch_bytes [valid1; not_json; valid2])]) in
  row_count st = 2%nat /\ _file_offset st = 189%nat
  /\ ~ In 1%nat [row_count st; _file_offset st].
Proof.
  cbn zeta. split; [vm_compute; reflexivity|].
  split; [vm_compute; reflexivity|].
  intros H. vm_compute in H. destruct H as [H|[H|[]]]; discriminate.
Qed.

(** C2, witness. *)
Lemma malformed_line_isolated_witness :
  let st := __init__ half_second None in
  let log := [] ++ batch_bytes [valid1; not_json; valid2] in
  let result :=
    iteration float_repr_shortest unicode14_todecimal (Some log) st in
  let e1 := enrich unicode14_todecimal valid1 in
  let e2 := enrich unicode14_todecimal valid2 in
  let icon e := status_icon (item e (str "overall_status")) in
  fst result = Ok tt
  /\ content (output_file (snd result))
     = content (output_file st)
       ++ serialize float_repr_shortest e1
       ++ serialize float_repr_shortest e2
  /\ row_count (snd result) = (row_count st + 2)%nat
  /\ trace (snd result)
     = trace st ++ [PrintRow (row_count st + 1) (icon e1) e1;
                    PrintSkipped;
                    PrintRow (row_count st + 2) (icon e2) e2;
                    Sleep (poll_interval st)]
  /\ _file_offset (snd result) = length log.
Proof.
  apply (malformed_line_isolated float_repr_shortest unicode14_todecimal []
           valid1 valid2
           (enrich unicode14_todecimal valid1)
           (enrich unicode14_todecimal valid2)
           (__init__ half_second None)).
  - apply valid1_reading.
  - apply valid2_reading.
  - reflexivity.
Defined.

(** C3, counterexample.  A reading without its [aqi] field is not refused:
    the transformer returns a record whose [aqi] is 0.  And a reading whose
    three fields are numbers is refused when its temperature is an integer
    beyond the range of binary64. *)
Lemma missing_field_defaults_to_zero :
  let row := PyDict (sample_dict missing_aqi) in
  let huge := PyDict [(str "aqi", PyInt 1);
                      (str "temperature_c", PyInt (10 ^ 400));
                      (str "humidity_pct", PyInt 1)] in
  json_loads (sample_text missing_aqi) = Ok row
  /\ dict_lookup (sample_dict missing_aqi) (str "aqi") = None
  /\ _transform_row unicode14_todecimal row
     = Ok (enrich unicode14_todecimal missing_aqi)
  /\ item (enrich unicode14_todecimal missing_aqi) (str "aqi") = PyInt 0
  /\ is_raise (_transform_row unicode14_todecimal row) = false
  /\ _transform_row unicode14_todecimal huge = Raise OverflowError.
Proof.
  cbn zeta. repeat split; vm_compute; reflexivity.
Qed.

(** A reading whose [aqi] is the string [high], between two readings: the
    [ValueError] of the coercion is not a [JSONDecodeError], so it escapes
    the loop, which ends there with the first record written and the third
    reading unread. *)
Lemma coercion_failure_escapes :
  let result :=
    run_pipeline float_repr_shortest unicode14_todecimal None
      [Some (batch_bytes [valid1; text_aqi; valid2])] in
  fst result = Raise ValueError
  /\ content (output_file (snd result))
     = serialize float_repr_shortest (enrich unicode14_todecimal valid1)
  /\ row_count (snd result) = 1%nat.
Proof.
  cbn zeta. repeat split; vm_compute; reflexivity.
Qed.

(** C3, witness: a reading without [aqi], and one whose [aqi] is the string
    [high]. *)
Lemma transform_row_contract_witness :
  (exists e,
     _transform_row unicode14_todecimal (PyDict (sample_dict missing_aqi))
     = Ok e
     /\ item e (str "aqi") = PyInt 0)
  /\ (exists x,
        _transform_row unicode14_todecimal (PyDict (sample_dict text_aqi))
        = Raise x
        /\ In x [ValueError; TypeError; OverflowError]).
Proof.
  split.
  - destruct (proj1 (transform_row_contract unicode14_todecimal
                       (sample_dict missing_aqi)))
      as (e & E & Ha & _); try (vm_compute; reflexivity).
    exists e. split; [exact E|]. apply Ha. vm_compute. reflexivity.
  - apply (proj2 (transform_row_contract unicode14_todecimal
                    (sample_dict text_aqi))).
    left. vm_compute. reflexivity.
Defined.

(** C4, counterexample.  At 150 the air quality index exceeds the lower
    threshold, and so does a humidity of 80: the overall status is not
    SAFE. *)
Lemma threshold_150_not_safe :
  compute_overall_status 150 (float_of_Z 0) 0 <> str "SAFE"
  /\ compute_overall_status 150 (float_of_Z 0) 0 = str "CAUTION"
  /\ compute_overall_status 0 (float_of_Z 0) 80 <> str "SAFE"
  /\ compute_overall_status 0 (float_of_Z 0) 80 = str "CAUTION".
Proof.
  repeat split; vm_compute; solve [reflexivity | discriminate].
Qed.

(** C6, witness: three readings over five polls, two of which find no
    file and one of which finds nothing new; and the same three readings
    in two chunks, the first of which ends in the middle of the second
    reading. *)
Lemma ordering_preserved_witness :
  let st := __init__ half_second None in
  let e1 := enrich unicode14_todecimal valid1 in
  let e2 := enrich unicode14_todecimal valid2 in
  let e3 := enrich unicode14_todecimal valid3 in
  let whole :=
    run_loop float_repr_shortest unicode14_todecimal
      (repeat None 2 ++ snapshots [] [[valid1]; []; [valid2; valid3]]) st in
  let torn :=
    run_loop float_repr_shortest unicode14_todecimal
      (repeat None 2
       ++ growing [] [(valid1 ++ newline) ++ torn_head;
                      torn_tail ++ valid3 ++ newline]) st in
  (fst whole = Ok tt
   /\ content (output_file (snd whole))
      = flat_map (serialize float_repr_shortest) [e1; e2; e3]
   /\ row_count (snd whole) = 3%nat)
  /\ (fst torn = Ok tt
      /\ content (output_file (snd torn))
         = flat_map (serialize float_repr_shortest) [e1; e3]
      /\ row_count (snd torn) = 2%nat).
Proof.
  destruct (ordering_preserved float_repr_shortest unicode14_todecimal 2
              [[valid1]; []; [valid2; valid3]]
              [[enrich unicode14_todecimal valid1]; [];
               [enrich unicode14_todecimal valid2;
                enrich unicode14_todecimal valid3]]
              [(valid1 ++ newline) ++ torn_head;
               torn_tail ++ valid3 ++ newline]
              (__init__ half_second None) eq_refl) as [A B].
  split.
  - apply A. repeat constructor;
      auto using valid1_reading, valid2_reading, valid3_reading.
  - cbn zeta in B.
    destruct B as (B1 & B2 & B3); [repeat constructor|].
    rewrite B1, B2, B3. vm_compute. repeat split.
Defined.

(** C7, witness: with the first line consumed, a file whose first line has
    been overwritten with zero bytes is read like the file itself. *)
Lemma cursor_monotone_witness :
  let consumed := valid1 ++ newline in
  let st := with_file_offset (length consumed) (__init__ half_second None) in
  let b1 := consumed ++ valid2 ++ newline in
  let b2 := repeat Byte.x00 (length consumed) ++ valid2 ++ newline in
  (_file_offset st
   <= _file_offset
        (snd (run_loop float_repr_shortest unicode14_todecimal
                [Some b1; None] st)))%nat
  /\ _file_offset
       (snd (iteration float_repr_shortest unicode14_todecimal (Some b1) st))
     = length b1
  /\ iteration float_repr_shortest unicode14_todecimal (Some b1) st
     = iteration float_repr_shortest unicode14_todecimal (Some b2) st.
Proof.
  cbn zeta.
  destruct (cursor_monotone float_repr_shortest unicode14_todecimal
              [Some ((valid1 ++ newline) ++ valid2 ++ newline); None]
              (with_file_offset (length (valid1 ++ newline))
                 (__init__ half_second None))
              ((valid1 ++ newline) ++ valid2 ++ newline)
              (repeat Byte.x00 (length (valid1 ++ newline))
               ++ valid2 ++ newline))
    as (H1 & H2 & H3).
  split; [exact H1|]. split.
  - rewrite H2; vm_compute; reflexivity.
  - apply H3. vm_compute. reflexivity.
Defined.

(** C10, witness: a line of blanks, and a file that gains two blank
    lines. *)
Lemma blank_line_skipped_witness :
  let pre := valid1 ++ newline in
  let new := quoted "   " ++ newline ++ newline in
  let st := with_file_offset (length pre) (__init__ half_second None) in
  let line := [32; 9; LF]%N in
  process_line float_repr_shortest unicode14_todecimal line st = (Ok tt, st)
  /\ for_each (process_line float_repr_shortest unicode14_todecimal)
       (line :: [sample_text valid2]) st
     = for_each (process_line float_repr_shortest unicode14_todecimal)
         [sample_text valid2] st
  /\ iteration float_repr_shortest unicode14_todecimal (Some (pre ++ new)) st
     = (Ok tt, add_event (Sleep (poll_interval st))
                 (with_file_offset (length (pre ++ new)) st)).
Proof.
  apply (blank_line_skipped float_repr_shortest unicode14_todecimal
           [32; 9; LF]%N [sample_text valid2] (valid1 ++ newline)
           (quoted "   " ++ newline ++ newline)
           (sample_text (quoted "   ") ++ [LF; LF])%N
           (with_file_offset (length (valid1 ++ newline))
              (__init__ half_second None))).
  - vm_compute. reflexivity.
  - vm_compute. reflexivity.
  - vm_compute. repeat constructor.
  - reflexivity.
Defined.

